(** * Scrape orchestration engine of the journal-scraper extension

    A shallow embedding of [extension/background.js]: the session state,
    the message handlers, the per-page result handlers and the small
    date/path helper, followed by the properties of the orchestrator. *)

From Stdlib Require Import List String Ascii Bool Arith ZArith Lia.
From Stdlib Require Import DecimalString.
Import ListNotations.
Open Scope string_scope.

(** ** JavaScript string helpers

    Strings are modelled as [string], a sequence of bytes holding the
    UTF-8 form of the JavaScript string.  Every helper below searches
    for, or produces, ASCII text only, so byte positions and UTF-16
    positions agree wherever the orchestrator looks. *)

(** Template-literal rendering of a counter: [`${n}`]. *)
Definition showNat (n : nat) : string :=
  NilZero.string_of_uint (Nat.to_uint n).

(** Template-literal rendering of an integer-valued number. *)
Definition showZ (z : Z) : string :=
  NilZero.string_of_int (Z.to_int z).

Fixpoint repeatChar (c : ascii) (n : nat) : string :=
  match n with
  | O => EmptyString
  | S k => String c (repeatChar c k)
  end.

(** [s.padStart(width, c)] for a one-character filler. *)
Definition padStart (width : nat) (c : ascii) (s : string) : string :=
  repeatChar c (width - String.length s) ++ s.

(** [s.substring(0, n)]. *)
Definition substringTo (n : nat) (s : string) : string :=
  substring 0 n s.

(** [s.substring(n)]. *)
Definition substringFrom (n : nat) (s : string) : string :=
  substring n (String.length s - n) s.

(** [s.split(sep)[0]] for a non-empty [sep]: the text before the first
    occurrence of [sep], or all of [s] when [sep] does not occur. *)
Fixpoint splitHead (sep s : string) : string :=
  if prefix sep s then EmptyString
  else match s with
       | EmptyString => EmptyString
       | String c rest => String c (splitHead sep rest)
       end.

(** [s.includes(sep)]. *)
Fixpoint includes (sep s : string) : bool :=
  if prefix sep s then true
  else match s with
       | EmptyString => false
       | String _ rest => includes sep rest
       end.

(** [s.includes(c)] for a single character. *)
Fixpoint hasChar (c : ascii) (s : string) : bool :=
  match s with
  | EmptyString => false
  | String a rest => Ascii.eqb a c || hasChar c rest
  end.

(** *** The regular expression [/\b(20\d{2})\b/] *)

Definition isDigit (c : ascii) : bool :=
  let n := nat_of_ascii c in ((48 <=? n) && (n <=? 57))%nat.

(** The class [\w] : letters, digits and the underscore. *)
Definition isWordChar (c : ascii) : bool :=
  let n := nat_of_ascii c in
  (((48 <=? n) && (n <=? 57)) || ((65 <=? n) && (n <=? 90))
   || ((97 <=? n) && (n <=? 122)) || (n =? 95))%nat.

(** Does [20\d{2}\b] match at the head of [s]?  Returns the capture. *)
Definition yearTokenHere (s : string) : option string :=
  match s with
  | String c0 (String c1 (String d1 (String d2 rest))) =>
      if Ascii.eqb c0 "2" && Ascii.eqb c1 "0" && isDigit d1 && isDigit d2 &&
         match rest with
         | EmptyString => true
         | String c _ => negb (isWordChar c)
         end
      then Some (String c0 (String c1 (String d1 (String d2 EmptyString))))
      else None
  | _ => None
  end.

(** Leftmost match of [/\b(20\d{2})\b/] in [s], scanning with the
    knowledge of whether the previous character was a word character
    (the leading [\b] holds at a digit exactly when it was not). *)
Fixpoint yearMatchFrom (prevWord : bool) (s : string) : option string :=
  match s with
  | EmptyString => None
  | String c rest =>
      match (if prevWord then None else yearTokenHere s) with
      | Some y => Some y
      | None => yearMatchFrom (isWordChar c) rest
      end
  end.

(** [pubDate.match(/\b(20\d{2})\b/)], reduced to its capture group. *)
Definition yearMatch (pubDate : string) : option string :=
  yearMatchFrom false pubDate.

(** ** The engine's [Date]

    [new Date(text)] parses free text in an engine-defined way; the
    orchestrator only reads the local calendar fields of the result. *)

Record JSDate := mkJSDate {
  getFullYear : Z;
  getMonth : nat;   (* 0 .. 11 *)
  getDate : nat     (* 1 .. 31 *)
}.

(** The clock reading taken by [new Date()] while a payload is handled. *)
Record Clock := mkClock {
  nowDate : JSDate;
  nowISO : string   (* [now.toISOString()] *)
}.

(** [`${yyyy}${mm}${dd}`] with month and day padded to two digits. *)
Definition formatYMD (d : JSDate) : string :=
  showZ (getFullYear d)
  ++ padStart 2 "0" (showNat (getMonth d + 1))
  ++ padStart 2 "0" (showNat (getDate d)).

(** ** Data model *)

Record Article := mkArticle {
  title : string;
  url : option string;
  isOA : bool;
  articleJournal : option string;
  articlePublicationDate : option string
}.

Record Pagination := mkPagination {
  totalResults : Z;
  pageSize : Z
}.

(** The [data] object of a [pageScraped] message, with the fields the
    background script reads.  A flag that is absent from the object is
    [false]; an absent or [null] reference is [None]. *)
Record Payload := mkPayload {
  isNatureSearch : bool;
  isHeartbeat : bool;
  articles : list Article;
  journal : string;
  publicationDate : string;
  htmlContent : string;
  currentUrl : string;
  nextIssueUrl : option string;
  pagination : option Pagination
}.

(** Tab ids are drawn by the browser from a positive counter, so the
    truthiness test [state.scraperTabId && ...] is the test against
    [null]. *)
Definition TabId := positive.

(** The module-level [state] object. *)
Record State := mkState {
  isScraping : bool;
  scraperTabId : option TabId;
  currentJournal : option string;
  allArticles : list Article;
  natureArticles : list Article;
  naturePageCount : nat;
  issueCount : nat;
  lastScrapedTitle : string
}.

(** The initial value of [state] when the script is loaded. *)
Definition initialState : State :=
  mkState false None None [] [] 0 0 "".

(** The status object sent by [broadcastStatus] and [handleCheckStatus]. *)
Record Status := mkStatus {
  statusIsScraping : bool;
  statusJournal : option string;
  statusIssueCount : nat;
  statusArticleCount : nat;
  statusLastScrapedTitle : string
}.

Inductive Response :=
| Started
| Stopped
| Received
| StatusReply (st : Status).

(** What is handed to [saveFile] as content.  The JSON text produced by
    [JSON.stringify] is kept as the object it serialises. *)
Inductive FileContent :=
| Html (text : string)
| IssueManifest (journalName pubDate scrapedAt : string) (arts : list Article)
| SearchPage (scrapedAt : string) (arts : list Article).

(** The closure handed to [setTimeout(…, 2000)]: both closures navigate
    the scraper tab; only the issue one registers a completion callback. *)
Inductive Timer :=
| NavigateIssue (target : string)
| NavigateSearch (target : string).

(** Calls into the browser made by the background script. *)
Inductive Effect :=
| SaveFile (content : FileContent) (filename mime : string)
| Broadcast (st : Status)
| SetTimeout (k : Timer)
| TabsCreate (target : string)
| TabsRemove (id : TabId)
| TabsUpdate (id : TabId) (target : string) (withCallback : bool)
| Respond (r : Response).

Definition isSaveFile (e : Effect) : bool :=
  match e with SaveFile _ _ _ => true | _ => false end.

Definition isSetTimeout (e : Effect) : bool :=
  match e with SetTimeout _ => true | _ => false end.

Definition isTabsRemove (e : Effect) : bool :=
  match e with TabsRemove _ => true | _ => false end.

Definition isTabsUpdate (e : Effect) : bool :=
  match e with TabsUpdate _ _ _ => true | _ => false end.

(** ** A state-and-trace monad for the handlers

    A handler reads and writes the global [state] and calls the browser;
    [M A] threads the state and collects the calls in order. *)

Definition M (A : Type) : Type := State -> A * State * list Effect.

Definition ret {A} (a : A) : M A := fun s => (a, s, []).

Definition bind {A B} (c : M A) (k : A -> M B) : M B :=
  fun s =>
    let '(a, s1, e1) := c s in
    let '(b, s2, e2) := k a s1 in
    (b, s2, (e1 ++ e2)%list).

Definition get : M State := fun s => (s, s, []).

Definition modify (f : State -> State) : M unit := fun s => (tt, f s, []).

Definition emit (e : Effect) : M unit := fun s => (tt, s, [e]).

Definition when (b : bool) (c : M unit) : M unit :=
  if b then c else ret tt.

Notation "x <- c ;; k" := (bind c (fun x => k))
  (at level 61, c at next level, right associativity).
Notation "c ;; k" := (bind c (fun _ => k))
  (at level 61, right associativity).

(** State after running a handler, and the calls it made. *)
Definition stateAfter {A} (c : M A) (s : State) : State := snd (fst (c s)).
Definition effectsOf {A} (c : M A) (s : State) : list Effect := snd (c s).

(** *** Field assignments *)

Definition setIsScraping (b : bool) (s : State) : State :=
  mkState b (scraperTabId s) (currentJournal s) (allArticles s)
          (natureArticles s) (naturePageCount s) (issueCount s)
          (lastScrapedTitle s).

Definition setScraperTabId (t : option TabId) (s : State) : State :=
  mkState (isScraping s) t (currentJournal s) (allArticles s)
          (natureArticles s) (naturePageCount s) (issueCount s)
          (lastScrapedTitle s).

Definition setCurrentJournal (j : option string) (s : State) : State :=
  mkState (isScraping s) (scraperTabId s) j (allArticles s)
          (natureArticles s) (naturePageCount s) (issueCount s)
          (lastScrapedTitle s).

Definition setAllArticles (l : list Article) (s : State) : State :=
  mkState (isScraping s) (scraperTabId s) (currentJournal s) l
          (natureArticles s) (naturePageCount s) (issueCount s)
          (lastScrapedTitle s).

Definition setNatureArticles (l : list Article) (s : State) : State :=
  mkState (isScraping s) (scraperTabId s) (currentJournal s) (allArticles s)
          l (naturePageCount s) (issueCount s) (lastScrapedTitle s).

Definition setNaturePageCount (n : nat) (s : State) : State :=
  mkState (isScraping s) (scraperTabId s) (currentJournal s) (allArticles s)
          (natureArticles s) n (issueCount s) (lastScrapedTitle s).

Definition setIssueCount (n : nat) (s : State) : State :=
  mkState (isScraping s) (scraperTabId s) (currentJournal s) (allArticles s)
          (natureArticles s) (naturePageCount s) n (lastScrapedTitle s).

Definition setLastScrapedTitle (t : string) (s : State) : State :=
  mkState (isScraping s) (scraperTabId s) (currentJournal s) (allArticles s)
          (natureArticles s) (naturePageCount s) (issueCount s) t.

(** ** State management *)

Definition resetState (j : option string) : M unit :=
  modify (setIsScraping true) ;;
  modify (setCurrentJournal j) ;;
  modify (setAllArticles []) ;;
  modify (setNatureArticles []) ;;
  modify (setNaturePageCount 0) ;;
  modify (setIssueCount 0) ;;
  modify (setLastScrapedTitle "").

(** [a || b] on counters: the first operand unless it is zero. *)
Definition orElse (a b : nat) : nat :=
  match a with O => b | _ => a end.

Definition statusOf (s : State) : Status :=
  mkStatus (isScraping s) (currentJournal s)
           (orElse (naturePageCount s) (issueCount s))
           (orElse (List.length (natureArticles s)) (List.length (allArticles s)))
           (lastScrapedTitle s).

Definition broadcastStatus : M unit :=
  s <- get ;; emit (Broadcast (statusOf s)).

Definition saveFile (content : FileContent) (filename mime : string) : M unit :=
  emit (SaveFile content filename mime).

Definition stopScraping (shouldCloseTab : bool) : M unit :=
  modify (setIsScraping false) ;;
  s <- get ;;
  match scraperTabId s, shouldCloseTab with
  | Some id, true => emit (TabsRemove id)
  | Some _, false => modify (setScraperTabId None)
  | None, _ => ret tt
  end ;;
  broadcastStatus.

(** ** Pagination arithmetic *)

(** [Math.ceil(a / b)] on integer-valued numbers, [b] positive. *)
Definition ceilDiv (a b : Z) : Z := (- ((- a) / b))%Z.

(** [pagination.totalResults || 0] after [data.pagination || {}]. *)
Definition totalResultsOf (data : Payload) : Z :=
  match pagination data with
  | Some p => totalResults p
  | None => 0%Z
  end.

(** [Math.min(Math.ceil(totalResults / 50), 20)]. *)
Definition stopAtPage (data : Payload) : Z :=
  Z.min (ceilDiv (totalResultsOf data) 50) 20.

(** The URL of the following search page, as built in
    [handleNatureSearchData] from the page count already incremented. *)
Definition nextSearchUrl (current : string) (pageCount : nat) : string :=
  let baseUrl := splitHead "&page=" current in
  baseUrl ++ "&page=" ++ showNat (pageCount + 1).

(** The title of the last article of a non-empty list. *)
Definition lastTitle (arts : list Article) : string :=
  List.last (map title arts) "".

(** A string reference is truthy when it is present and not empty. *)
Definition truthy (o : option string) : option string :=
  match o with
  | Some EmptyString => None
  | other => other
  end.

(** ** Events reaching the background script *)

Inductive Message :=
| StartScraping (target : string) (j : option string)
| StopScraping
| CheckStatus
| PageScraped (data : Payload)
| OtherAction.

Inductive Event :=
| OnMessage (now : Clock) (m : Message)
| TabCreated (id : TabId)        (* callback of [chrome.tabs.create] *)
| TabRemoved                     (* callback of [chrome.tabs.remove] *)
| TimerElapsed (k : Timer)       (* a 2000 ms timeout runs its closure *)
| TabUpdated (lastError : bool). (* callback of the issue-mode update *)

Definition isStart (ev : Event) : bool :=
  match ev with
  | OnMessage _ (StartScraping _ _) => true
  | _ => false
  end.

(** ** A reference [Date] parser for running the handlers

    Engines differ on free text, but all of them read the long form
    [Month D, YYYY] as that local calendar day.  [longDate] accepts that
    form only, with a day that exists in the month, and calls every
    other text an invalid date. *)

Definition monthNames : list string :=
  ["January"; "February"; "March"; "April"; "May"; "June"; "July";
   "August"; "September"; "October"; "November"; "December"].

Fixpoint indexOf (x : string) (l : list string) : option nat :=
  match l with
  | [] => None
  | y :: rest =>
      if String.eqb x y then Some 0%nat
      else option_map S (indexOf x rest)
  end.

Definition isLetter (c : ascii) : bool :=
  let n := nat_of_ascii c in
  (((65 <=? n) && (n <=? 90)) || ((97 <=? n) && (n <=? 122)))%nat.

Fixpoint span (p : ascii -> bool) (s : string) : string * string :=
  match s with
  | EmptyString => (EmptyString, EmptyString)
  | String c rest =>
      if p c then let '(a, b) := span p rest in (String c a, b)
      else (EmptyString, s)
  end.

Fixpoint digitsValueFrom (acc : nat) (s : string) : nat :=
  match s with
  | EmptyString => acc
  | String c rest => digitsValueFrom (10 * acc + (nat_of_ascii c - 48)) rest
  end.

Definition digitsValue (s : string) : nat := digitsValueFrom 0 s.

Definition isLeap (y : nat) : bool :=
  ((y mod 4 =? 0) && (negb (y mod 100 =? 0) || (y mod 400 =? 0)))%nat.

Definition daysIn (m y : nat) : nat :=
  match m with
  | 1 => if isLeap y then 29 else 28
  | 3 | 5 | 8 | 10 => 30
  | _ => 31
  end%nat.

Definition longDate (text : string) : option JSDate :=
  let '(name, r1) := span isLetter text in
  match indexOf name monthNames, r1 with
  | Some m, String " " r2 =>
      let '(dd, r3) := span isDigit r2 in
      match dd, r3 with
      | String _ _, String "," (String " " r4) =>
          let '(yy, r5) := span isDigit r4 in
          match yy, r5 with
          | String _ _, EmptyString =>
              let d := digitsValue dd in
              let y := digitsValue yy in
              if ((1 <=? d) && (d <=? daysIn m y))%nat
              then Some (mkJSDate (Z.of_nat y) m d)
              else None
          | _, _ => None
          end
      | _, _ => None
      end
  | _, _ => None
  end.

(** The [pageScraped] messages carrying a list of payloads, each with
    the clock reading at its arrival. *)
Definition pageScrapedEvents (ps : list (Clock * Payload)) : list Event :=
  map (fun p => OnMessage (fst p) (PageScraped (snd p))) ps.

(** A heartbeat payload: the heartbeat flag is set and there are no
    articles. *)
Definition heartbeatShape (data : Payload) : Prop :=
  isHeartbeat data = true /\ articles data = [].

(** The shape of an issue result: neither discriminator is set. *)
Definition issueShape (data : Payload) : Prop :=
  isNatureSearch data = false /\ isHeartbeat data = false.

(** [s'] extends [s]: both article lists only gained a suffix and
    neither counter went down. *)
Definition extends (s s' : State) : Prop :=
  (exists l, allArticles s' = (allArticles s ++ l)%list) /\
  (exists l, natureArticles s' = (natureArticles s ++ l)%list) /\
  (issueCount s <= issueCount s')%nat /\
  (naturePageCount s <= naturePageCount s')%nat.

Section Orchestrator.

(** [new Date(pubDate)] seen through [isNaN(date.getTime())]:
    [None] stands for an invalid date. *)
Variable newDate : string -> option JSDate.

(** *** Utilities *)

Definition parsePublicationDate (pubDate : string) : string :=
  match newDate pubDate with
  | Some date => formatYMD date
  | None =>
      let year := match yearMatch pubDate with
                  | Some y => y
                  | None => "unknown_year"
                  end in
      year ++ "_unknown"
  end.

Definition issueBasename (data : Payload) : string :=
  let yyyymmdd := parsePublicationDate (publicationDate data) in
  let yyyy := substringTo 4 yyyymmdd in
  let mmdd := substringFrom 4 yyyymmdd in
  "chrome/" ++ journal data ++ "/" ++ yyyy ++ "/" ++ mmdd.

Definition saveHtmlForDebug (data : Payload) : M unit :=
  saveFile (Html (htmlContent data)) (issueBasename data ++ ".html")
           "text/html".

(** *** Data processing *)

Definition handleNatureSearchData (now : Clock) (data : Payload) : M unit :=
  modify (fun s => setNaturePageCount (naturePageCount s + 1) s) ;;
  modify (fun s => setNatureArticles (natureArticles s ++ articles data)%list s) ;;
  when (0 <? List.length (articles data))%nat
       (modify (setLastScrapedTitle (lastTitle (articles data)))) ;;
  broadcastStatus ;;
  s <- get ;;
  let yyyymmdd := formatYMD (nowDate now) in
  let pageNum := padStart 2 "0" (showNat (naturePageCount s)) in
  let baseFilename := "chrome/search/" ++ yyyymmdd ++ "/page" ++ pageNum in
  saveFile (Html (htmlContent data)) (baseFilename ++ ".html") "text/html" ;;
  saveFile (SearchPage (nowISO now) (articles data))
           (baseFilename ++ ".json") "application/json" ;;
  if (Z.of_nat (naturePageCount s) <? stopAtPage data)%Z
  then emit (SetTimeout
               (NavigateSearch
                  (nextSearchUrl (currentUrl data) (naturePageCount s))))
  else stopScraping false.

Definition handleScrapedData (now : Clock) (data : Payload) : M unit :=
  s <- get ;;
  if negb (isScraping s) then ret tt
  else if isNatureSearch data then handleNatureSearchData now data
  else if isHeartbeat data then saveHtmlForDebug data
  else
    modify (fun s => setIssueCount (issueCount s + 1) s) ;;
    modify (fun s => setAllArticles (allArticles s ++ articles data)%list s) ;;
    when (0 <? List.length (articles data))%nat
         (modify (setLastScrapedTitle (lastTitle (articles data)))) ;;
    broadcastStatus ;;
    saveFile (IssueManifest (journal data) (publicationDate data)
                            (nowISO now) (articles data))
             (issueBasename data ++ ".json") "application/json" ;;
    saveHtmlForDebug data ;;
    match truthy (nextIssueUrl data) with
    | Some target => emit (SetTimeout (NavigateIssue target))
    | None => stopScraping false
    end.

(** *** Action handlers *)

Definition handleStartScraping (target : string) (j : option string)
  : M unit :=
  resetState j ;;
  emit (TabsCreate target) ;;
  emit (Respond Started).

Definition handleStopScraping : M unit :=
  stopScraping true ;;
  emit (Respond Stopped).

Definition handleCheckStatus : M unit :=
  s <- get ;; emit (Respond (StatusReply (statusOf s))).

Definition handlePageScraped (now : Clock) (data : Payload) : M unit :=
  handleScrapedData now data ;;
  emit (Respond Received).

(** *** Events reaching the background script *)

Definition onMessage (now : Clock) (m : Message) : M unit :=
  match m with
  | StartScraping target j => handleStartScraping target j
  | StopScraping => handleStopScraping
  | CheckStatus => handleCheckStatus
  | PageScraped data => handlePageScraped now data
  | OtherAction => ret tt
  end.

Definition runTimer (k : Timer) : M unit :=
  s <- get ;;
  match scraperTabId s with
  | Some id =>
      if isScraping s then
        match k with
        | NavigateIssue target => emit (TabsUpdate id target true)
        | NavigateSearch target => emit (TabsUpdate id target false)
        end
      else ret tt
  | None => ret tt
  end.

Definition onEvent (ev : Event) : M unit :=
  match ev with
  | OnMessage now m => onMessage now m
  | TabCreated id => modify (setScraperTabId (Some id))
  | TabRemoved => modify (setScraperTabId None)
  | TimerElapsed k => runTimer k
  | TabUpdated lastError => when lastError (stopScraping false)
  end.

(** Events handled one after another, as the event loop delivers them. *)
Fixpoint runEvents (evs : list Event) : M unit :=
  match evs with
  | [] => ret tt
  | ev :: rest => onEvent ev ;; runEvents rest
  end.

End Orchestrator.

(** ** Reading the specification

    The definitions below say in their own terms what the specification
    asks of the helpers, to be compared with what the code computes. *)

(** A year token: the four characters [20dd]. *)
Definition isYearToken (y : string) : bool :=
  match y with
  | String c0 (String c1 (String d1 (String d2 EmptyString))) =>
      Ascii.eqb c0 "2" && Ascii.eqb c1 "0" && isDigit d1 && isDigit d2
  | _ => false
  end.

(** Is the last character read a word character, given whether the
    character before the text was one? *)
Fixpoint wordStateAfter (before : bool) (text : string) : bool :=
  match text with
  | EmptyString => before
  | String c rest => wordStateAfter (isWordChar c) rest
  end.

Definition endsWithWordChar (text : string) : bool :=
  wordStateAfter false text.

Definition startsWithWordChar (text : string) : bool :=
  match text with
  | EmptyString => false
  | String c _ => isWordChar c
  end.

(** [y] is a year token standing in [text] as a word of its own. *)
Definition hasYearToken (y text : string) : Prop :=
  exists pre post,
    text = pre ++ y ++ post /\
    isYearToken y = true /\
    endsWithWordChar pre = false /\
    startsWithWordChar post = false.

(** The stop page as the specification words it, with the page size
    taken from the payload: [min(ceil(totalResults / pageSize), 20)]. *)
Definition stopAtPageSpec (p : Pagination) : Z :=
  Z.min (ceilDiv (totalResults p) (pageSize p)) 20.

(** [text.split(c)] for a one-character separator. *)
Fixpoint splitOn (c : ascii) (text : string) : list string :=
  match text with
  | EmptyString => [EmptyString]
  | String a rest =>
      if Ascii.eqb a c then EmptyString :: splitOn c rest
      else match splitOn c rest with
           | h :: t => String a h :: t
           | [] => [String a EmptyString]
           end
  end.

(** The text before the first [c], or all of it when [c] is absent. *)
Fixpoint beforeFirst (c : ascii) (text : string) : string :=
  match text with
  | EmptyString => EmptyString
  | String a rest =>
      if Ascii.eqb a c then EmptyString else String a (beforeFirst c rest)
  end.

(** The text after the first [c], when there is one. *)
Fixpoint afterFirst (c : ascii) (text : string) : option string :=
  match text with
  | EmptyString => None
  | String a rest => if Ascii.eqb a c then Some rest else afterFirst c rest
  end.

(** A query parameter named [page]. *)
Definition isPageParam (param : string) : bool := prefix "page=" param.

(** A URL without its [page=] query parameters, the other parameters
    staying in their order. *)
Definition stripPageParam (address : string) : string :=
  match afterFirst "?" address with
  | None => address
  | Some query =>
      let kept := filter (fun param => negb (isPageParam param))
                         (splitOn "&" query) in
      match kept with
      | [] => beforeFirst "?" address
      | _ => beforeFirst "?" address ++ "?" ++ concat "&" kept
      end
  end.

(** The next search URL as the specification words it: the current URL
    stripped of any [page=] parameter, with [page={count+1}] appended
    as a query parameter, that is after [&] when the stripped URL has a
    query and after [?] when it has none. *)
Definition nextSearchUrlSpec (current : string) (pageCount : nat) : string :=
  let stripped := stripPageParam current in
  stripped ++ (if hasChar "?" stripped then "&" else "?")
  ++ "page=" ++ showNat (pageCount + 1).

(** The years written with four digits. *)
Definition fourDigitYears : list Z :=
  map (fun n => (1000 + Z.of_nat n)%Z) (seq 0 (90 * 100)).

(** ** Sample data *)

Definition sampleClock : Clock :=
  mkClock (mkJSDate 2024 0 15) "2024-01-15T09:00:00.000Z".

Definition articleA : Article :=
  mkArticle "A" (Some "https://www.cell.com/cell/fulltext/A") false None None.

Definition articleB : Article :=
  mkArticle "B" (Some "https://www.nature.com/articles/B") true
            (Some "Nature") (Some "2024-01-10").

Definition issuePayload (next : option string) : Payload :=
  mkPayload false false [articleA] "cell" "March 3, 2024" "<html>A</html>"
            "https://www.cell.com/cell/issue" next None.

Definition heartbeatPayload : Payload :=
  mkPayload false true [] "cell" "March 3, 2024" "<html>hb</html>"
            "https://www.cell.com/cell/issue" None None.

Definition searchPayload (total size : Z) (current : string) (hb : bool)
  : Payload :=
  mkPayload true hb [articleB] "Nature" "Unknown Date" "<html>B</html>"
            current None (Some (mkPagination total size)).

Definition activeState : State :=
  mkState true (Some 7%positive) (Some "nature") [] [] 0 0 "".

Definition busyState : State :=
  mkState true (Some 7%positive) (Some "cell") [articleA; articleA] [] 0 2 "A".

Definition searchUrl : string := "https://www.nature.com/search?q=crispr".

(** The search page opened without any query. *)
Definition bareSearchUrl : string := "https://www.nature.com/search".

(** A payload with the heartbeat flag, no articles, and the search
    discriminator as well. *)
Definition flaggedSearchHeartbeat : Payload :=
  mkPayload true true [] "Nature" "Unknown Date" "<html>hb</html>"
            searchUrl None None.

Definition pageFirstUrl : string :=
  "https://www.nature.com/search?page=2&q=crispr".

(** An active search session that has handled one page. *)
Definition searchingState : State :=
  mkState true (Some 7%positive) (Some "nature") [] [articleB] 1 0 "B".

Definition nextIssue : string := "https://www.cell.com/cell/issue?pii=next".

Definition secondSearchPage : string :=
  "https://www.nature.com/search?q=crispr&page=2".

(** A session stopped after one issue. *)
Definition stoppedState : State :=
  mkState false None (Some "cell") [articleA] [] 0 1 "A".

Definition unknownDatePayload : Payload :=
  mkPayload false false [articleA] "Science" "Unknown Date" "<html>S</html>"
            "https://www.science.org/toc/science/383/6678" None None.

Definition volumePayload : Payload :=
  mkPayload false false [articleA] "Nature" "Volume 12, 2023 (date unparseable)"
            "<html>N</html>"
            "https://www.nature.com/nature/volumes/12/issues/1" None None.

(** A search result that carries no pagination data. *)
Definition barePayload : Payload :=
  mkPayload true false [articleB] "Nature" "Unknown Date" "<html>B</html>"
            searchUrl None None.

Definition cellIssueUrl : string :=
  "https://www.cell.com/cell/issue?pii=S0092-8674(24)X0002-3".

(** ** Further notions for the orchestrator *)

(** The circuit breaker on search pages: no more than twenty pages are
    counted, and an active session has counted fewer than twenty. *)
Definition withinCap (s : State) : Prop :=
  (naturePageCount s <= 20)%nat /\
  (isScraping s = true -> (naturePageCount s <= 19)%nat).

(** The statuses broadcast by a list of calls, in order. *)
Fixpoint broadcastsOf (effs : list Effect) : list Status :=
  match effs with
  | [] => []
  | Broadcast st :: rest => st :: broadcastsOf rest
  | _ :: rest => broadcastsOf rest
  end.

(** The answers given through [sendResponse], in order. *)
Fixpoint responsesOf (effs : list Effect) : list Response :=
  match effs with
  | [] => []
  | Respond r :: rest => r :: responsesOf rest
  | _ :: rest => responsesOf rest
  end.

Definition isTabsCreate (e : Effect) : bool :=
  match e with TabsCreate _ => true | _ => false end.

Definition isPageScraped (ev : Event) : bool :=
  match ev with OnMessage _ (PageScraped _) => true | _ => false end.

Definition isStop (ev : Event) : bool :=
  match ev with OnMessage _ StopScraping => true | _ => false end.

Definition isTimerElapsed (ev : Event) : bool :=
  match ev with TimerElapsed _ => true | _ => false end.

(** Everything of the session but the tab reference. *)
Definition sameResults (s s' : State) : Prop :=
  currentJournal s' = currentJournal s /\
  allArticles s' = allArticles s /\
  natureArticles s' = natureArticles s /\
  naturePageCount s' = naturePageCount s /\
  issueCount s' = issueCount s /\
  lastScrapedTitle s' = lastScrapedTitle s.

(** The target URL captured by a timer's closure. *)
Definition timerTarget (k : Timer) : string :=
  match k with
  | NavigateIssue target => target
  | NavigateSearch target => target
  end.

(** ** The popup's start button

    The click handler of [startBtn] validates the URL of the active tab
    and, when it names a supported page, sends [startScraping]. *)

(** [text] without the prefix [p], when it starts with it. *)
Fixpoint stripPrefix (p text : string) : option string :=
  match p with
  | EmptyString => Some text
  | String a p' =>
      match text with
      | EmptyString => None
      | String b rest => if Ascii.eqb a b then stripPrefix p' rest else None
      end
  end.

Definition notSlash (c : ascii) : bool := negb (Ascii.eqb c "/").

(** Does [/cell\.com\/[^/]+\/issue/] match at the head of [text]?  The
    class [[^/]+] takes the whole run up to the next slash, since the
    pattern goes on with a slash. *)
Definition cellPatternHere (text : string) : bool :=
  match stripPrefix "cell.com/" text with
  | Some rest =>
      let '(segment, after) := span notSlash rest in
      match segment with
      | EmptyString => false
      | String _ _ => prefix "/issue" after
      end
  | None => false
  end.

(** [/cell\.com\/[^/]+\/issue/.test(url)]. *)
Fixpoint isCellUrl (address : string) : bool :=
  cellPatternHere address ||
  match address with
  | EmptyString => false
  | String _ rest => isCellUrl rest
  end.

(** [/science\.org\/toc\//.test(url)]: the pattern is a literal. *)
Definition isScienceUrl (address : string) : bool :=
  includes "science.org/toc/" address.

Definition isNatureSearchUrl (address : string) : bool :=
  includes "nature.com/search" address.

Definition isNatureIssueUrl (address : string) : bool :=
  includes "nature.com/" address && includes "/volumes/" address
  && includes "/issues/" address.

(** The journal named in the message, by the order of the assignments. *)
Definition journalFor (address : string) : string :=
  if isCellUrl address then "cell"
  else if isNatureSearchUrl address || isNatureIssueUrl address then "nature"
  else "science".

(** The message sent by a click on the start button, given the URL of
    the active tab ([None] when there is no tab or it has no URL). *)
Definition startClick (tabUrl : option string) : option Message :=
  match truthy tabUrl with
  | None => None
  | Some address =>
      if isCellUrl address || isScienceUrl address
         || isNatureSearchUrl address || isNatureIssueUrl address
      then Some (StartScraping address (Some (journalFor address)))
      else None
  end.

(** ** Properties *)

Section Properties.

Variable newDate : string -> option JSDate.

Ltac run :=
  cbv [onEvent onMessage handlePageScraped handleScrapedData
       handleNatureSearchData handleStartScraping handleStopScraping
       handleCheckStatus runTimer stopScraping resetState
       saveHtmlForDebug saveFile broadcastStatus
       bind get modify emit ret when stateAfter effectsOf];
  simpl.

Lemma stateAfter_bind {A B} (c : M A) (k : A -> M B) (s : State) :
  stateAfter (bind c k) s = stateAfter (k (fst (fst (c s)))) (stateAfter c s).
Proof.
  unfold stateAfter, bind.
  destruct (c s) as [[a s1] e1]; simpl.
  destruct (k a s1) as [[b s2] e2]; reflexivity.
Qed.

Lemma effectsOf_bind {A B} (c : M A) (k : A -> M B) (s : State) :
  effectsOf (bind c k) s =
  (effectsOf c s ++ effectsOf (k (fst (fst (c s)))) (stateAfter c s))%list.
Proof.
  unfold effectsOf, stateAfter, bind.
  destruct (c s) as [[a s1] e1]; simpl.
  destruct (k a s1) as [[b s2] e2]; reflexivity.
Qed.

(** *** Stale results *)

Lemma handleScrapedData_inactive now data s :
  isScraping s = false ->
  handleScrapedData newDate now data s = (tt, s, []).
Proof.
  intros H. unfold handleScrapedData, bind, get. rewrite H. reflexivity.
Qed.

(** C1. While the session is inactive, any sequence of [pageScraped]
    payloads leaves the whole session state as it was and writes no
    file: each payload is only acknowledged. *)
Theorem inactive_payloads_ignored (ps : list (Clock * Payload)) (s : State) :
  isScraping s = false ->
  stateAfter (runEvents newDate (pageScrapedEvents ps)) s = s /\
  effectsOf (runEvents newDate (pageScrapedEvents ps)) s
    = repeat (Respond Received) (List.length ps) /\
  existsb isSaveFile
    (effectsOf (runEvents newDate (pageScrapedEvents ps)) s) = false.
Proof.
  intros Hoff.
  assert (Hstep : forall now data,
             onEvent newDate (OnMessage now (PageScraped data)) s
             = (tt, s, [Respond Received])).
  { intros now data. cbn [onEvent onMessage]. unfold handlePageScraped, bind.
    rewrite (handleScrapedData_inactive now data s Hoff). reflexivity. }
  assert (Hrun : runEvents newDate (pageScrapedEvents ps) s
                 = (tt, s, repeat (Respond Received) (List.length ps))).
  { induction ps as [|[now data] rest IH]; [reflexivity|].
    cbn [pageScrapedEvents map runEvents fst snd].
    unfold bind at 1. rewrite Hstep.
    fold (pageScrapedEvents rest). rewrite IH. reflexivity. }
  unfold stateAfter, effectsOf. rewrite Hrun. cbn [fst snd].
  repeat split.
  clear Hrun. generalize (List.length ps) as n.
  induction n as [|n IHn]; [reflexivity|exact IHn].
Qed.

(** *** Heartbeats *)

(** C6, as the code has it.  A heartbeat payload that does not also
    carry the search discriminator, handled while the session is
    active, only has the raw page HTML written: the state, with its
    counters and article lists, is untouched, no status is broadcast
    and no navigation is scheduled. *)
Theorem heartbeat_only_saves_html now data s :
  isScraping s = true ->
  heartbeatShape data ->
  isNatureSearch data = false ->
  handleScrapedData newDate now data s
  = (tt, s, [SaveFile (Html (htmlContent data))
                      (issueBasename newDate data ++ ".html")
                      "text/html"]).
Proof.
  intros Hon (Hhb & _) Hsearch.
  unfold handleScrapedData, bind, get.
  rewrite Hon, Hsearch, Hhb. reflexivity.
Qed.

(** *** Dispatch order *)

Lemma search_flag_dispatch now data s :
  isScraping s = true ->
  isNatureSearch data = true ->
  handleScrapedData newDate now data s = handleNatureSearchData now data s.
Proof.
  intros Hon Hsearch.
  unfold handleScrapedData, bind, get at 1.
  rewrite Hon, Hsearch. cbn [negb].
  destruct (handleNatureSearchData now data s) as [[u s'] e]; reflexivity.
Qed.

(** C10. A payload with the search discriminator goes to the search
    handler whatever its heartbeat flag says: the search page counter
    goes up by one, the articles are appended, the page's HTML and
    JSON are written, and the next page is scheduled exactly when the
    new count is below [stopAtPage]. *)
Theorem search_flag_precedes_heartbeat now data s :
  isScraping s = true ->
  isNatureSearch data = true ->
  let s' := stateAfter (handleScrapedData newDate now data) s in
  let effs := effectsOf (handleScrapedData newDate now data) s in
  let base := "chrome/search/" ++ formatYMD (nowDate now) ++ "/page"
              ++ padStart 2 "0" (showNat (naturePageCount s + 1)) in
  handleScrapedData newDate now data s = handleNatureSearchData now data s /\
  naturePageCount s' = (naturePageCount s + 1)%nat /\
  natureArticles s' = (natureArticles s ++ articles data)%list /\
  In (SaveFile (Html (htmlContent data)) (base ++ ".html") "text/html") effs /\
  In (SaveFile (SearchPage (nowISO now) (articles data)) (base ++ ".json")
               "application/json") effs /\
  (existsb isSetTimeout effs
   = (Z.of_nat (naturePageCount s + 1) <? stopAtPage data)%Z).
Proof.
  intros Hon Hsearch s' effs base.
  pose proof (search_flag_dispatch now data s Hon Hsearch) as Hd.
  split; [exact Hd|].
  subst s' effs base. unfold stateAfter, effectsOf. rewrite Hd. clear Hd.
  run.
  destruct (0 <? List.length (articles data))%nat; simpl;
    destruct (Z.of_nat (naturePageCount s + 1) <? stopAtPage data)%Z; simpl;
    destruct (scraperTabId s); simpl; intuition.
Qed.

(** *** Natural completion *)

(** C7. An issue result without a next-issue link, handled while the
    session is active, ends the session in that same step: the session
    is inactive afterwards, the tab reference is dropped, the tab is
    neither closed nor navigated, no timer is set, and a timer still
    pending from before finds nothing to do. *)
Theorem last_issue_ends_session now data s :
  isScraping s = true ->
  issueShape data ->
  nextIssueUrl data = None ->
  let s' := stateAfter (handleScrapedData newDate now data) s in
  let effs := effectsOf (handleScrapedData newDate now data) s in
  isScraping s' = false /\
  scraperTabId s' = None /\
  existsb isSetTimeout effs = false /\
  existsb isTabsRemove effs = false /\
  existsb isTabsUpdate effs = false /\
  (forall k, runTimer k s' = (tt, s', [])).
Proof.
  intros Hon (Hsearch & Hhb) Hnext s' effs. subst s' effs.
  destruct s as [on tab jn aa na np ic lt]; cbn [isScraping] in Hon; subst on.
  run. rewrite Hsearch, Hhb, Hnext. simpl.
  destruct (0 <? List.length (articles data))%nat; simpl;
    destruct tab; simpl; repeat split; intros k; destruct k; reflexivity.
Qed.

(** *** Starting *)

(** C5, as the code has it.  A start is never refused: whatever the
    state, also an active one, the message is answered [Started], a new
    tab is asked for, nothing is closed, and the session is replaced by
    a fresh active one for the given journal, whose status shows no
    page and no article; the tab reference held before stays until the
    new tab's creation callback overwrites it. *)
Theorem start_always_resets now target j s id :
  let start := OnMessage now (StartScraping target j) in
  onEvent newDate start s
  = (tt,
     mkState true (scraperTabId s) j [] [] 0 0 "",
     [TabsCreate target; Respond Started]) /\
  statusOf (stateAfter (onEvent newDate start) s) = mkStatus true j 0 0 "" /\
  stateAfter (runEvents newDate [start; TabCreated id]) s
  = mkState true (Some id) j [] [] 0 0 "".
Proof.
  intros start. subst start.
  split; [reflexivity|].
  split; [reflexivity|].
  cbn [runEvents]. rewrite !stateAfter_bind. reflexivity.
Qed.

(** *** Accumulators *)

Lemma extends_refl s : extends s s.
Proof.
  unfold extends; repeat split; try lia; exists []; symmetry; apply app_nil_r.
Qed.

Lemma extends_trans s1 s2 s3 : extends s1 s2 -> extends s2 s3 -> extends s1 s3.
Proof.
  intros ([a1 Ha1] & [n1 Hn1] & Hi1 & Hp1) ([a2 Ha2] & [n2 Hn2] & Hi2 & Hp2).
  unfold extends; repeat split; try lia.
  - exists (a1 ++ a2)%list. rewrite Ha2, Ha1. symmetry; apply app_assoc.
  - exists (n1 ++ n2)%list. rewrite Hn2, Hn1. symmetry; apply app_assoc.
Qed.

Ltac extends_now :=
  unfold extends; cbn;
  repeat split;
  solve [ lia
        | eexists; reflexivity
        | exists []; symmetry; apply app_nil_r ].

Lemma onEvent_extends ev s :
  isStart ev = false -> extends s (stateAfter (onEvent newDate ev) s).
Proof.
  intros Hns.
  destruct s as [on tab jn aa na np ic lt].
  destruct ev as [now m | id | | k | err]; cbn [isStart] in Hns.
  - destruct m as [target j | | | data |]; try discriminate.
    + run. destruct tab; extends_now.
    + run. extends_now.
    + run. destruct on; cbn; [|extends_now].
      destruct (isNatureSearch data); cbn.
      * destruct (articles data) as [|a0 arts]; cbn;
          destruct (Z.of_nat (np + 1) <? stopAtPage data)%Z; cbn;
          destruct tab; extends_now.
      * destruct (isHeartbeat data); cbn; [extends_now|].
        destruct (articles data) as [|a0 arts]; cbn;
          destruct (truthy (nextIssueUrl data)); cbn;
          destruct tab; extends_now.
    + run. extends_now.
  - run. extends_now.
  - run. extends_now.
  - run. destruct tab; cbn; [destruct on, k|]; extends_now.
  - run. destruct err; cbn; [destruct tab|]; extends_now.
Qed.

Lemma runEvents_extends evs s :
  forallb (fun ev => negb (isStart ev)) evs = true ->
  extends s (stateAfter (runEvents newDate evs) s).
Proof.
  revert s. induction evs as [|ev rest IH]; intros s Hns.
  - apply extends_refl.
  - cbn [forallb] in Hns. apply andb_prop in Hns as [Hev Hrest].
    cbn [runEvents]. rewrite stateAfter_bind.
    eapply extends_trans; [|apply IH; exact Hrest].
    apply onEvent_extends. now destruct (isStart ev).
Qed.

(** C9. A start empties both article lists and zeroes both counters;
    from then on, through any events that are not another start (page
    results, stop, status queries, tab and timer callbacks), each
    article list only gains a suffix and neither counter decreases. *)
Theorem accumulators_reset_only_at_start
        now target j s0 (before after : list Event) :
  forallb (fun ev => negb (isStart ev)) (before ++ after) = true ->
  let s1 := stateAfter
              (onEvent newDate (OnMessage now (StartScraping target j))) s0 in
  let sa := stateAfter (runEvents newDate before) s1 in
  let sb := stateAfter (runEvents newDate after) sa in
  (allArticles s1 = [] /\ natureArticles s1 = [] /\
   issueCount s1 = 0%nat /\ naturePageCount s1 = 0%nat) /\
  extends s1 sa /\ extends sa sb.
Proof.
  intros Hns s1 sa sb.
  rewrite forallb_app in Hns. apply andb_prop in Hns as [Hb Ha].
  split; [repeat split|].
  split; [apply runEvents_extends; exact Hb|apply runEvents_extends; exact Ha].
Qed.

(** *** Pagination *)

Lemma ceilDiv_fifty (a : Z) :
  (50 * (ceilDiv a 50 - 1) < a <= 50 * ceilDiv a 50)%Z.
Proof.
  unfold ceilDiv.
  pose proof (Z.div_mod (- a) 50 ltac:(lia)) as Hdm.
  pose proof (Z.mod_pos_bound (- a) 50 ltac:(lia)) as Hb.
  lia.
Qed.

(** C2, as the code has it.  The stop page is [min(k, 20)] where [k]
    is the number of pages of fifty results needed for
    [totalResults]; the payload's own page size is not read, so this
    is the specification's formula when that size is fifty.  While
    the session is active, handling a search result keeps it active
    and schedules the next page exactly when the new page count is
    below the stop page. *)
Theorem stop_page_counts_fifty_per_page now data p s :
  pagination data = Some p ->
  isScraping s = true ->
  exists k : Z,
    (50 * (k - 1) < totalResults p <= 50 * k)%Z /\
    stopAtPage data = Z.min k 20 /\
    (pageSize p = 50%Z -> stopAtPage data = stopAtPageSpec p) /\
    (totalResults p = 1000%Z -> stopAtPage data = 20%Z) /\
    (totalResults p = 40%Z -> stopAtPage data = 1%Z) /\
    let s' := stateAfter (handleNatureSearchData now data) s in
    let effs := effectsOf (handleNatureSearchData now data) s in
    isScraping s' = (Z.of_nat (naturePageCount s') <? Z.min k 20)%Z /\
    existsb isSetTimeout effs
      = (Z.of_nat (naturePageCount s') <? Z.min k 20)%Z.
Proof.
  intros Hp Hon.
  assert (Hstop : stopAtPage data = Z.min (ceilDiv (totalResults p) 50) 20).
  { unfold stopAtPage, totalResultsOf. rewrite Hp. reflexivity. }
  exists (ceilDiv (totalResults p) 50).
  split; [apply ceilDiv_fifty|].
  split; [exact Hstop|].
  split; [intros Hsize; unfold stopAtPageSpec; rewrite Hsize; exact Hstop|].
  split; [intros Ht; rewrite Hstop, Ht; reflexivity|].
  split; [intros Ht; rewrite Hstop, Ht; reflexivity|].
  rewrite <- Hstop.
  destruct s as [on tab jn aa na np ic lt]; cbn [isScraping] in Hon; subst on.
  run.
  destruct (articles data) as [|a0 arts]; cbn;
    destruct (Z.of_nat (np + 1) <? stopAtPage data)%Z eqn:Hlt; cbn;
    destruct tab; cbn; rewrite ?Hlt; split; reflexivity.
Qed.

(** *** Navigation failure *)

(** When the update of the tab to the next issue reports an error,
    the session stops: it is inactive afterwards, the tab reference
    is dropped and the tab is not closed. *)
Lemma issue_navigation_failure_stops s :
  let s' := stateAfter (onEvent newDate (TabUpdated true)) s in
  isScraping s' = false /\
  scraperTabId s' = None /\
  existsb isTabsRemove (effectsOf (onEvent newDate (TabUpdated true)) s)
    = false.
Proof.
  destruct s as [on tab jn aa na np ic lt].
  run. destruct tab; cbn; repeat split.
Qed.

(** The timer of a search page navigates without a completion
    callback, that of an issue page with one. *)
Lemma runTimer_active k id s :
  isScraping s = true ->
  scraperTabId s = Some id ->
  runTimer k s
  = (tt, s,
     [match k with
      | NavigateIssue target => TabsUpdate id target true
      | NavigateSearch target => TabsUpdate id target false
      end]).
Proof.
  intros Hon Htab. unfold runTimer, bind, get. rewrite Htab, Hon.
  destruct k; reflexivity.
Qed.

(** *** Date keys *)

Lemma yearTokenHere_sound text y :
  yearTokenHere text = Some y ->
  exists post,
    text = y ++ post /\ isYearToken y = true /\
    startsWithWordChar post = false.
Proof.
  destruct text as [|c0 [|c1 [|d1 [|d2 rest]]]]; cbn; try discriminate.
  destruct (Ascii.eqb c0 "2" && Ascii.eqb c1 "0" && isDigit d1 && isDigit d2)
    eqn:Htok; cbn; [|discriminate].
  destruct rest as [|c rest]; cbn.
  - intros [= <-]. exists EmptyString. cbn. rewrite Htok. auto.
  - destruct (isWordChar c) eqn:Hc; cbn; [discriminate|].
    intros [= <-]. exists (String c rest). cbn. rewrite Htok, Hc. auto.
Qed.

Lemma yearTokenHere_complete y post :
  isYearToken y = true ->
  startsWithWordChar post = false ->
  yearTokenHere (y ++ post) = Some y.
Proof.
  destruct y as [|c0 [|c1 [|d1 [|d2 [|c4 y]]]]]; cbn; try discriminate.
  intros Htok Hpost. rewrite Htok. cbn.
  destruct post as [|c rest]; cbn in *; [reflexivity|].
  rewrite Hpost. reflexivity.
Qed.

Lemma yearMatchFrom_sound text : forall before y,
  yearMatchFrom before text = Some y ->
  exists pre post,
    text = pre ++ y ++ post /\ isYearToken y = true /\
    wordStateAfter before pre = false /\
    startsWithWordChar post = false.
Proof.
  induction text as [|c rest IH]; intros before y; cbn [yearMatchFrom];
    [discriminate|].
  destruct (if before then None else yearTokenHere (String c rest))
    as [y'|] eqn:Hhere.
  - intros [= <-]. destruct before; [discriminate|].
    apply yearTokenHere_sound in Hhere as (post & Heq & Htok & Hpost).
    exists EmptyString, post. cbn. auto.
  - intros Hrest. apply IH in Hrest as (pre & post & Heq & Htok & Hpre & Hpost).
    exists (String c pre), post. cbn. rewrite Heq. auto.
Qed.

Lemma yearMatchFrom_complete y post pre : forall before,
  isYearToken y = true ->
  wordStateAfter before pre = false ->
  startsWithWordChar post = false ->
  yearMatchFrom before (pre ++ y ++ post) <> None.
Proof.
  induction pre as [|c pre IH]; intros before Htok Hpre Hpost.
  - cbn in Hpre. subst before. cbn [append].
    pose proof (yearTokenHere_complete y post Htok Hpost) as Hhere.
    destruct (y ++ post) as [|c rest] eqn:Heq; [discriminate|].
    cbn [yearMatchFrom]. rewrite Hhere. discriminate.
  - cbn [append yearMatchFrom].
    destruct (if before then None else yearTokenHere (String c (pre ++ y ++ post)));
      [discriminate|].
    apply IH; assumption.
Qed.

Lemma yearMatch_none_iff text :
  yearMatch text = None <-> forall y, ~ hasYearToken y text.
Proof.
  unfold yearMatch. split.
  - intros Hnone y (pre & post & -> & Htok & Hpre & Hpost).
    exact (yearMatchFrom_complete y post pre false Htok Hpre Hpost Hnone).
  - intros Hno. destruct (yearMatchFrom false text) as [y|] eqn:Hm; [|reflexivity].
    exfalso. apply (Hno y).
    apply yearMatchFrom_sound in Hm as (pre & post & Heq & Htok & Hpre & Hpost).
    exists pre, post. auto.
Qed.

Lemma string_length_append (a b : string) :
  String.length (a ++ b) = (String.length a + String.length b)%nat.
Proof. induction a as [|c a IH]; cbn; [reflexivity|now rewrite IH]. Qed.

Lemma showZ_four_digits (y : Z) :
  (1000 <= y <= 9999)%Z -> String.length (showZ y) = 4%nat.
Proof.
  intros Hy.
  assert (Hall : forallb (fun z => (String.length (showZ z) =? 4)%nat)
                         fourDigitYears = true) by (vm_compute; reflexivity).
  rewrite forallb_forall in Hall.
  apply Nat.eqb_eq, Hall. unfold fourDigitYears.
  replace y with (1000 + Z.of_nat (Z.to_nat (y - 1000)))%Z by lia.
  apply (in_map (fun n => (1000 + Z.of_nat n)%Z)), in_seq. lia.
Qed.

Lemma pad2_two_digits (n : nat) :
  (n <= 99)%nat -> String.length (padStart 2 "0" (showNat n)) = 2%nat.
Proof.
  intros Hn.
  assert (Hall : forallb (fun k => (String.length (padStart 2 "0" (showNat k)) =? 2)%nat)
                         (seq 0 100) = true) by (vm_compute; reflexivity).
  rewrite forallb_forall in Hall.
  apply Nat.eqb_eq, Hall, in_seq. lia.
Qed.

(** C4, as the code has it.  When the engine parses the date, the key
    is the year followed by the two-digit month and day: eight
    characters for a four-digit year.  When it does not, the key is
    [{year}_unknown] for a [20dd] token standing in the text as a
    word of its own, and [unknown_year_unknown] exactly when the text
    has no such token. *)
Theorem date_key_cases (pubDate : string) :
  (forall date, newDate pubDate = Some date ->
     parsePublicationDate newDate pubDate
     = showZ (getFullYear date)
       ++ padStart 2 "0" (showNat (getMonth date + 1))
       ++ padStart 2 "0" (showNat (getDate date)) /\
     ((1000 <= getFullYear date <= 9999)%Z ->
      (getMonth date <= 11)%nat -> (getDate date <= 31)%nat ->
      String.length (parsePublicationDate newDate pubDate) = 8%nat)) /\
  (newDate pubDate = None ->
     (exists year, hasYearToken year pubDate /\
        parsePublicationDate newDate pubDate = year ++ "_unknown") \/
     ((forall year, ~ hasYearToken year pubDate) /\
        parsePublicationDate newDate pubDate = "unknown_year_unknown")).
Proof.
  unfold parsePublicationDate. split.
  - intros date ->. split; [reflexivity|].
    intros Hy Hm Hd. unfold formatYMD.
    rewrite !string_length_append, showZ_four_digits by exact Hy.
    rewrite !pad2_two_digits by lia. reflexivity.
  - intros ->. destruct (yearMatch pubDate) as [y|] eqn:Hm.
    + left. exists y. split; [|reflexivity].
      apply yearMatchFrom_sound in Hm as (pre & post & Heq & Htok & Hpre & Hpost).
      exists pre, post. auto.
    + right. split; [|reflexivity]. apply yearMatch_none_iff, Hm.
Qed.

(** *** Search URLs *)

Lemma prefix_nil (s : string) : prefix "" s = true.
Proof. destruct s; reflexivity. Qed.

Lemma prefix_append (x y : string) : prefix x (x ++ y) = true.
Proof.
  induction x as [|a x IH]; cbn [append]; [apply prefix_nil|].
  cbn [prefix]. destruct (ascii_dec a a); [exact IH|congruence].
Qed.

Lemma prefix_app_l (x h rest : string) :
  prefix x h = true -> prefix x (h ++ rest) = true.
Proof.
  revert h. induction x as [|a x IH]; intros h Hp; [apply prefix_nil|].
  destruct h as [|b h]; cbn in Hp; [discriminate|].
  cbn [append prefix]. destruct (ascii_dec a b); [apply IH; exact Hp|discriminate].
Qed.

Lemma includes_cons_false (sep : string) (c : ascii) (s : string) :
  includes sep (String c s) = false ->
  prefix sep (String c s) = false /\ includes sep s = false.
Proof.
  cbn [includes]. destruct (prefix sep (String c s)); [discriminate|auto].
Qed.

Lemma includes_false_prefix (sep s : string) :
  includes sep s = false -> prefix sep s = false.
Proof.
  destruct s as [|c s]; cbn [includes];
    destruct (prefix sep _); congruence.
Qed.

Lemma includes_app_r (sep x y : string) :
  includes sep (x ++ y) = false -> includes sep y = false.
Proof.
  induction x as [|c x IH]; cbn [append]; [auto|].
  intros H. apply includes_cons_false in H as [_ H]. auto.
Qed.

Ltac split_chars :=
  repeat match goal with
         | H : context [ascii_dec ?a ?b] |- _ =>
             destruct (ascii_dec a b); [try subst|try discriminate]
         | |- context [ascii_dec ?a ?b] =>
             destruct (ascii_dec a b); [try subst|try reflexivity]
         end;
  try discriminate; try reflexivity; try congruence.

(** A [page=] that starts inside [b] cannot run over into an appended
    [&page=...]: the ampersand is no character of it. *)
Lemma page_no_straddle (b v : string) :
  prefix "page=" b = false ->
  prefix "page=" (b ++ "&page=" ++ v) = false.
Proof.
  intros Hb.
  destruct b as [|c1 [|c2 [|c3 [|c4 [|c5 b]]]]];
    cbn [append prefix] in *; split_chars.
  rewrite prefix_nil in Hb. discriminate.
Qed.

Lemma splitHead_page_appended (base v : string) :
  includes "page=" base = false ->
  splitHead "&page=" (base ++ "&page=" ++ v) = base.
Proof.
  induction base as [|c b IH]; intros Hinc.
  - pose proof (prefix_append "&page=" v) as Hp.
    cbn [append] in *. cbn [splitHead]. rewrite Hp. reflexivity.
  - apply includes_cons_false in Hinc as [_ Hb].
    specialize (IH Hb).
    pose proof (page_no_straddle b v (includes_false_prefix _ _ Hb)) as Hns.
    cbn [append] in *. cbn [splitHead]. cbn [prefix].
    destruct (ascii_dec "&" c); [rewrite Hns|]; rewrite IH; reflexivity.
Qed.

Lemma splitHead_page_absent (address : string) :
  includes "page=" address = false ->
  splitHead "&page=" address = address.
Proof.
  induction address as [|c r IH]; intros Hinc; [reflexivity|].
  apply includes_cons_false in Hinc as [_ Hr].
  cbn [splitHead].
  replace (prefix "&page=" (String c r)) with false.
  - rewrite (IH Hr). reflexivity.
  - symmetry. cbn [prefix]. destruct (ascii_dec "&" c); [|reflexivity].
    apply includes_false_prefix, Hr.
Qed.

Lemma splitOn_nonempty (c : ascii) (text : string) : splitOn c text <> [].
Proof.
  destruct text as [|a rest]; cbn; [discriminate|].
  destruct (Ascii.eqb a c); [discriminate|].
  destruct (splitOn c rest); discriminate.
Qed.

Lemma concat_cons (sep x : string) (l : list string) :
  l <> [] -> concat sep (x :: l) = x ++ sep ++ concat sep l.
Proof. destruct l; [congruence|reflexivity]. Qed.

Lemma append_nil_r (x : string) : x ++ "" = x.
Proof. induction x as [|a x IH]; cbn; [reflexivity|now rewrite IH]. Qed.

Lemma append_assoc (x y z : string) : (x ++ y) ++ z = x ++ y ++ z.
Proof. induction x as [|a x IH]; cbn; [reflexivity|now rewrite IH]. Qed.

(** Joining the pieces of a split gives the text back. *)
Lemma concat_splitOn (c : ascii) (text : string) :
  concat (String c "") (splitOn c text) = text.
Proof.
  induction text as [|a rest IH]; [reflexivity|].
  cbn [splitOn]. destruct (Ascii.eqb a c) eqn:Hac.
  - apply Ascii.eqb_eq in Hac. subst a.
    rewrite concat_cons by apply splitOn_nonempty.
    rewrite IH. reflexivity.
  - pose proof (splitOn_nonempty c rest) as Hne.
    destruct (splitOn c rest) as [|h t]; [congruence|].
    destruct t as [|h2 t].
    + cbn in *. now rewrite IH.
    + rewrite concat_cons by discriminate.
      rewrite concat_cons in IH by discriminate.
      rewrite <- IH. reflexivity.
Qed.

Lemma splitOn_head (c : ascii) (text h : string) (t : list string) :
  splitOn c text = h :: t -> exists rest, text = h ++ rest.
Proof.
  intros Hs. pose proof (concat_splitOn c text) as Hc. rewrite Hs in Hc.
  destruct t as [|h2 t].
  - exists EmptyString. cbn in Hc. now rewrite append_nil_r.
  - rewrite concat_cons in Hc by discriminate. eauto.
Qed.

Lemma splitOn_app (c : ascii) (q w : string) :
  splitOn c (q ++ String c w) = (splitOn c q ++ splitOn c w)%list.
Proof.
  induction q as [|a q IH]; cbn [append splitOn].
  - rewrite Ascii.eqb_refl. reflexivity.
  - destruct (Ascii.eqb a c); rewrite IH; [reflexivity|].
    pose proof (splitOn_nonempty c q) as Hne.
    destruct (splitOn c q) as [|h t]; [congruence|reflexivity].
Qed.

Lemma splitOn_absent (c : ascii) (w : string) :
  hasChar c w = false -> splitOn c w = [w].
Proof.
  induction w as [|a w IH]; [reflexivity|].
  cbn [hasChar splitOn]. intros H. apply orb_false_elim in H as [Hac Hw].
  rewrite Hac, (IH Hw). reflexivity.
Qed.

Lemma cut_at_first (c : ascii) (text q : string) :
  afterFirst c text = Some q ->
  text = beforeFirst c text ++ String c q.
Proof.
  induction text as [|a rest IH]; cbn [afterFirst beforeFirst]; [discriminate|].
  destruct (Ascii.eqb a c) eqn:Hac.
  - apply Ascii.eqb_eq in Hac. intros [= ->]. now subst a.
  - intros H. cbn [append]. now rewrite <- (IH H).
Qed.

Lemma afterFirst_present (c : ascii) (text : string) :
  hasChar c text = true -> exists q, afterFirst c text = Some q.
Proof.
  induction text as [|a rest IH]; cbn [hasChar afterFirst]; [discriminate|].
  destruct (Ascii.eqb a c); cbn; eauto.
Qed.

Lemma afterFirst_app (c : ascii) (text q extra : string) :
  afterFirst c text = Some q ->
  afterFirst c (text ++ extra) = Some (q ++ extra) /\
  beforeFirst c (text ++ extra) = beforeFirst c text.
Proof.
  induction text as [|a rest IH]; cbn [afterFirst beforeFirst append];
    [discriminate|].
  destruct (Ascii.eqb a c).
  - intros [= ->]. auto.
  - intros H. destruct (IH H) as [H1 H2]. now rewrite H1, H2.
Qed.

(** Without any [page=] in the text, no piece of it is a page
    parameter. *)
Lemma no_page_params (query : string) :
  includes "page=" query = false ->
  forallb (fun param => negb (isPageParam param)) (splitOn "&" query) = true.
Proof.
  induction query as [|a rest IH]; intros Hinc; [reflexivity|].
  apply includes_cons_false in Hinc as [Hhere Hrest].
  specialize (IH Hrest). cbn [splitOn].
  destruct (Ascii.eqb a "&"); [cbn [forallb]; rewrite IH; reflexivity|].
  destruct (splitOn "&" rest) as [|h t] eqn:Hs;
    [exfalso; exact (splitOn_nonempty _ _ Hs)|].
  cbn [forallb] in *. apply andb_prop in IH as [_ Ht]. rewrite Ht.
  rewrite andb_true_r. unfold isPageParam.
  destruct (prefix "page=" (String a h)) eqn:Hp; [|reflexivity].
  apply splitOn_head in Hs as [tail ->].
  apply (prefix_app_l _ _ tail) in Hp. cbn [append] in Hp. congruence.
Qed.

Lemma strip_without_page (address : string) :
  includes "page=" address = false ->
  stripPageParam address = address.
Proof.
  intros Hinc. unfold stripPageParam.
  destruct (afterFirst "?" address) as [query|] eqn:Hq; [|reflexivity].
  pose proof (cut_at_first _ _ _ Hq) as Hcut.
  assert (Hquery : includes "page=" query = false).
  { rewrite Hcut in Hinc. apply includes_app_r in Hinc.
    apply includes_cons_false in Hinc as [_ H]. exact H. }
  rewrite forallb_filter_id by (apply no_page_params, Hquery).
  pose proof (splitOn_nonempty "&" query) as Hne.
  pose proof (concat_splitOn "&" query) as Hjoin.
  destruct (splitOn "&" query) as [|h t]; [congruence|].
  rewrite Hjoin. symmetry. exact Hcut.
Qed.

Lemma strip_trailing_page (base v : string) :
  includes "page=" base = false ->
  hasChar "?" base = true ->
  hasChar "&" v = false ->
  stripPageParam (base ++ "&page=" ++ v) = base.
Proof.
  intros Hinc Hq Hv. unfold stripPageParam.
  destruct (afterFirst_present _ _ Hq) as [query Hquery].
  destruct (afterFirst_app _ _ _ ("&page=" ++ v) Hquery) as [Hafter Hbefore].
  rewrite Hafter, Hbefore.
  pose proof (cut_at_first _ _ _ Hquery) as Hcut.
  assert (Hnone : includes "page=" query = false).
  { rewrite Hcut in Hinc. apply includes_app_r in Hinc.
    apply includes_cons_false in Hinc as [_ H]. exact H. }
  change ("&page=" ++ v) with (String "&" ("page=" ++ v)).
  rewrite splitOn_app, filter_app.
  rewrite (forallb_filter_id _ _ (no_page_params _ Hnone)).
  rewrite (splitOn_absent "&" ("page=" ++ v))
    by (cbn [append hasChar Ascii.eqb Bool.eqb orb]; exact Hv).
  cbn [filter]. unfold isPageParam. rewrite prefix_append. cbn [negb].
  rewrite app_nil_r.
  pose proof (splitOn_nonempty "&" query) as Hne.
  pose proof (concat_splitOn "&" query) as Hjoin.
  destruct (splitOn "&" query) as [|h t]; [congruence|].
  rewrite Hjoin. symmetry. exact Hcut.
Qed.

Lemma search_continue now data s :
  (Z.of_nat (naturePageCount s + 1) < stopAtPage data)%Z ->
  naturePageCount (stateAfter (handleNatureSearchData now data) s)
    = (naturePageCount s + 1)%nat /\
  filter isSetTimeout (effectsOf (handleNatureSearchData now data) s)
    = [SetTimeout
         (NavigateSearch
            (nextSearchUrl (currentUrl data) (naturePageCount s + 1)))].
Proof.
  intros Hlt. apply Z.ltb_lt in Hlt.
  destruct s as [on tab jn aa na np ic lt]. cbn [naturePageCount] in *.
  run. destruct (articles data) as [|a0 arts]; cbn; rewrite Hlt; cbn; auto.
Qed.

(** Where the code does what the specification asks.  For a search
    result handled below the stop page whose current URL has a query
    and either no [page=] at all or [page=] only as its last
    parameter, after an ampersand, the page scheduled next is the
    current URL stripped of that parameter with [page={count+1}]
    appended as a query parameter, [count] being the page count just
    reached. *)
Theorem next_search_url_replaces_trailing_page now data s base :
  isScraping s = true ->
  isNatureSearch data = true ->
  (Z.of_nat (naturePageCount s + 1) < stopAtPage data)%Z ->
  hasChar "?" base = true ->
  includes "page=" base = false ->
  (currentUrl data = base \/
   exists v, currentUrl data = base ++ "&page=" ++ v /\
             hasChar "&" v = false) ->
  let s' := stateAfter (handleScrapedData newDate now data) s in
  let target := base ++ "&page=" ++ showNat (naturePageCount s' + 1) in
  filter isSetTimeout (effectsOf (handleScrapedData newDate now data) s)
    = [SetTimeout (NavigateSearch target)] /\
  stripPageParam (currentUrl data) = base /\
  target = nextSearchUrlSpec (currentUrl data) (naturePageCount s').
Proof.
  intros Hon Hsearch Hlt Hquery Hbase Hshape s' target.
  subst s' target. unfold stateAfter, effectsOf.
  rewrite (search_flag_dispatch now data s Hon Hsearch).
  destruct (search_continue now data s Hlt) as [Hcount Hnav].
  unfold stateAfter, effectsOf in Hcount, Hnav. rewrite Hcount, Hnav.
  assert (Hcode : splitHead "&page=" (currentUrl data) = base).
  { destruct Hshape as [-> | (v & -> & _)].
    - apply splitHead_page_absent, Hbase.
    - apply splitHead_page_appended, Hbase. }
  assert (Hspec : stripPageParam (currentUrl data) = base).
  { destruct Hshape as [-> | (v & -> & Hv)].
    - apply strip_without_page, Hbase.
    - apply strip_trailing_page; assumption. }
  unfold nextSearchUrlSpec, nextSearchUrl. cbv zeta.
  rewrite Hcode, Hspec, Hquery. auto.
Qed.

End Properties.

(** ** The properties on concrete sessions *)

Lemma inactive_payloads_ignored_witness :
  let ps := [(sampleClock, issuePayload None);
             (sampleClock, searchPayload 1000 50 searchUrl false)] in
  isScraping initialState = false /\
  (stateAfter (runEvents longDate (pageScrapedEvents ps)) initialState
     = initialState /\
   effectsOf (runEvents longDate (pageScrapedEvents ps)) initialState
     = repeat (Respond Received) (List.length ps) /\
   existsb isSaveFile
     (effectsOf (runEvents longDate (pageScrapedEvents ps)) initialState)
     = false).
Proof.
  intros ps. split; [reflexivity|].
  apply (inactive_payloads_ignored longDate ps initialState). reflexivity.
Defined.

(** With one hundred results shown twenty-five to a page, the
    specification's formula stops at page four; the code stops at page
    two, and ends the session on receiving that page. *)
Lemma stop_page_ignores_page_size :
  let data := searchPayload 100 25 searchUrl false in
  stopAtPageSpec (mkPagination 100 25) = 4%Z /\
  stopAtPage data = 2%Z /\
  isScraping (stateAfter (handleScrapedData longDate sampleClock data)
                         searchingState) = false.
Proof. repeat split. Qed.

Lemma stop_page_counts_fifty_per_page_witness :
  let data := searchPayload 1000 50 searchUrl false in
  let p := mkPagination 1000 50 in
  pagination data = Some p /\
  isScraping activeState = true /\
  exists k : Z,
    (50 * (k - 1) < totalResults p <= 50 * k)%Z /\
    stopAtPage data = Z.min k 20 /\
    (pageSize p = 50%Z -> stopAtPage data = stopAtPageSpec p) /\
    (totalResults p = 1000%Z -> stopAtPage data = 20%Z) /\
    (totalResults p = 40%Z -> stopAtPage data = 1%Z) /\
    let s' := stateAfter (handleNatureSearchData sampleClock data) activeState in
    let effs := effectsOf (handleNatureSearchData sampleClock data) activeState in
    isScraping s' = (Z.of_nat (naturePageCount s') <? Z.min k 20)%Z /\
    existsb isSetTimeout effs
      = (Z.of_nat (naturePageCount s') <? Z.min k 20)%Z.
Proof.
  intros data p. split; [reflexivity|]. split; [reflexivity|].
  apply (stop_page_counts_fifty_per_page sampleClock data p activeState);
    reflexivity.
Defined.

Example stop_page_examples :
  stopAtPage (searchPayload 1000 50 searchUrl false) = 20%Z /\
  stopAtPage (searchPayload 40 50 searchUrl false) = 1%Z.
Proof. split; reflexivity. Qed.

(** C3.  The next URL is cut at the first [&page=] and [&page={count+1}]
    is glued on, which misses two cases.  With the page parameter first
    in the query, the URL scheduled next still carries it: the old
    [page=2] stays and [&page=3] is added, where stripping gives
    [?q=crispr&page=3].  Without any query, [&page=2] is glued to the
    path, where appending the parameter gives [?page=2]. *)
Theorem leading_page_param_not_stripped :
  let data := searchPayload 1000 50 pageFirstUrl false in
  let scheduled := "https://www.nature.com/search?page=2&q=crispr&page=3" in
  let bare := searchPayload 1000 50 bareSearchUrl false in
  filter isSetTimeout
    (effectsOf (handleScrapedData longDate sampleClock data) searchingState)
    = [SetTimeout (NavigateSearch scheduled)] /\
  nextSearchUrlSpec pageFirstUrl 2
    = "https://www.nature.com/search?q=crispr&page=3" /\
  scheduled <> nextSearchUrlSpec pageFirstUrl 2 /\
  includes "page=2" scheduled = true /\
  filter isSetTimeout
    (effectsOf (handleScrapedData longDate sampleClock bare) activeState)
    = [SetTimeout (NavigateSearch "https://www.nature.com/search&page=2")] /\
  nextSearchUrlSpec bareSearchUrl 1 = "https://www.nature.com/search?page=2" /\
  hasChar "?" "https://www.nature.com/search&page=2" = false.
Proof.
  repeat split. intros H. discriminate H.
Qed.

Lemma next_search_url_replaces_trailing_page_witness :
  let data := searchPayload 1000 50 (searchUrl ++ "&page=2") false in
  isScraping searchingState = true /\
  isNatureSearch data = true /\
  (Z.of_nat (naturePageCount searchingState + 1) < stopAtPage data)%Z /\
  hasChar "?" searchUrl = true /\
  includes "page=" searchUrl = false /\
  (currentUrl data = searchUrl \/
   exists v, currentUrl data = searchUrl ++ "&page=" ++ v /\
             hasChar "&" v = false) /\
  let s' := stateAfter (handleScrapedData longDate sampleClock data)
                       searchingState in
  let target := searchUrl ++ "&page=" ++ showNat (naturePageCount s' + 1) in
  filter isSetTimeout
    (effectsOf (handleScrapedData longDate sampleClock data) searchingState)
    = [SetTimeout (NavigateSearch target)] /\
  stripPageParam (currentUrl data) = searchUrl /\
  target = nextSearchUrlSpec (currentUrl data) (naturePageCount s').
Proof.
  intros data.
  assert (Hshape : currentUrl data = searchUrl \/
            exists v, currentUrl data = searchUrl ++ "&page=" ++ v /\
                      hasChar "&" v = false).
  { right. exists "2". repeat split. }
  split; [reflexivity|]. split; [reflexivity|]. split; [reflexivity|].
  split; [reflexivity|]. split; [reflexivity|]. split; [exact Hshape|].
  apply (next_search_url_replaces_trailing_page
           longDate sampleClock data searchingState searchUrl);
    [reflexivity | reflexivity | reflexivity | reflexivity | reflexivity
     | exact Hshape].
Defined.

(** A date the engine cannot parse and that names no year: the key is
    [unknown_year_unknown], which is no [{year}_unknown] for a four-digit
    year. *)
Lemma unparseable_date_without_year :
  longDate "Unknown Date" = None /\
  parsePublicationDate longDate "Unknown Date" = "unknown_year_unknown" /\
  ~ (exists year,
        isYearToken year = true /\
        parsePublicationDate longDate "Unknown Date" = year ++ "_unknown").
Proof.
  repeat split. intros (year & Htok & Heq).
  destruct year as [|c0 [|c1 [|d1 [|d2 [|c4 year]]]]]; try discriminate Htok.
  vm_compute in Heq. discriminate Heq.
Qed.

Lemma date_key_cases_witness :
  (longDate "March 3, 2024" = Some (mkJSDate 2024 2 3) /\
   parsePublicationDate longDate "March 3, 2024" = "20240303" /\
   String.length (parsePublicationDate longDate "March 3, 2024") = 8%nat) /\
  (longDate "Volume 12, 2023 (date unparseable)" = None /\
   ((exists year,
        hasYearToken year "Volume 12, 2023 (date unparseable)" /\
        parsePublicationDate longDate "Volume 12, 2023 (date unparseable)"
        = year ++ "_unknown") \/
    ((forall year, ~ hasYearToken year "Volume 12, 2023 (date unparseable)") /\
     parsePublicationDate longDate "Volume 12, 2023 (date unparseable)"
     = "unknown_year_unknown"))).
Proof.
  split.
  - destruct (proj1 (date_key_cases longDate "March 3, 2024")
                    (mkJSDate 2024 2 3) eq_refl) as [Hkey Hlen].
    split; [reflexivity|]. split; [exact Hkey|].
    apply Hlen; cbn; lia.
  - split; [reflexivity|].
    exact (proj2 (date_key_cases longDate "Volume 12, 2023 (date unparseable)")
                 eq_refl).
Defined.

Example date_key_examples :
  parsePublicationDate longDate "March 3, 2024" = "20240303" /\
  parsePublicationDate longDate "Volume 12, 2023 (date unparseable)"
  = "2023_unknown".
Proof. split; reflexivity. Qed.

(** A start received by a session that has already handled two issues
    is answered [Started] and wipes what the session had gathered. *)
Lemma start_while_active_not_rejected :
  isScraping busyState = true /\
  effectsOf (onMessage longDate sampleClock
               (StartScraping "https://www.science.org/toc/science/383/6678"
                              (Some "science"))) busyState
  = [TabsCreate "https://www.science.org/toc/science/383/6678";
     Respond Started] /\
  stateAfter (onMessage longDate sampleClock
                (StartScraping "https://www.science.org/toc/science/383/6678"
                               (Some "science"))) busyState
  <> busyState /\
  allArticles
    (stateAfter (onMessage longDate sampleClock
                   (StartScraping "https://www.science.org/toc/science/383/6678"
                                  (Some "science"))) busyState) = [].
Proof. repeat split. intros H. discriminate H. Qed.

(** A payload with the heartbeat flag and no articles that also
    carries the search discriminator is handled as a search page: the
    page is counted, the two search files are written, a status is
    broadcast and, having no pagination data, the session ends. *)
Lemma heartbeat_with_search_flag_is_counted :
  let data := flaggedSearchHeartbeat in
  let s' := stateAfter (handleScrapedData longDate sampleClock data) activeState in
  let effs := effectsOf (handleScrapedData longDate sampleClock data) activeState in
  isScraping activeState = true /\
  heartbeatShape data /\
  naturePageCount activeState = 0%nat /\
  naturePageCount s' = 1%nat /\
  isScraping s' = false /\
  map (fun e => match e with SaveFile _ name _ => name | _ => "" end)
      (filter isSaveFile effs)
  = ["chrome/search/20240115/page01.html";
     "chrome/search/20240115/page01.json"] /\
  handleScrapedData longDate sampleClock data activeState
  <> (tt, activeState,
      [SaveFile (Html (htmlContent data))
                (issueBasename longDate data ++ ".html") "text/html"]).
Proof.
  repeat split. intros H. discriminate H.
Qed.

Lemma heartbeat_only_saves_html_witness :
  isScraping busyState = true /\
  heartbeatShape heartbeatPayload /\
  isNatureSearch heartbeatPayload = false /\
  handleScrapedData longDate sampleClock heartbeatPayload busyState
  = (tt, busyState,
     [SaveFile (Html (htmlContent heartbeatPayload))
               (issueBasename longDate heartbeatPayload ++ ".html")
               "text/html"]).
Proof.
  assert (Hshape : heartbeatShape heartbeatPayload) by (repeat split).
  split; [reflexivity|]. split; [exact Hshape|]. split; [reflexivity|].
  apply (heartbeat_only_saves_html longDate sampleClock heartbeatPayload
                                   busyState eq_refl Hshape eq_refl).
Defined.

Example heartbeat_file :
  effectsOf (handleScrapedData longDate sampleClock heartbeatPayload) busyState
  = [SaveFile (Html "<html>hb</html>") "chrome/cell/2024/0303.html" "text/html"].
Proof. reflexivity. Qed.

Lemma last_issue_ends_session_witness :
  let data := issuePayload None in
  isScraping busyState = true /\
  issueShape data /\
  nextIssueUrl data = None /\
  let s' := stateAfter (handleScrapedData longDate sampleClock data) busyState in
  let effs := effectsOf (handleScrapedData longDate sampleClock data) busyState in
  isScraping s' = false /\
  scraperTabId s' = None /\
  existsb isSetTimeout effs = false /\
  existsb isTabsRemove effs = false /\
  existsb isTabsUpdate effs = false /\
  (forall k, runTimer k s' = (tt, s', [])).
Proof.
  intros data.
  assert (Hshape : issueShape data) by (split; reflexivity).
  split; [reflexivity|]. split; [exact Hshape|]. split; [reflexivity|].
  apply (last_issue_ends_session longDate sampleClock data busyState
                                 eq_refl Hshape eq_refl).
Defined.

(** C8.  A failed navigation stops an issue session but not a search
    session.  The search timer updates the tab without a completion
    callback, so after the page result and the timer the session is
    still active and nothing can report the failure to it; the issue
    timer registers the callback, and its error stops the session
    without closing the tab. *)
Theorem search_navigation_failure_not_observed :
  let data := searchPayload 1000 50 searchUrl false in
  let searchRun := [OnMessage sampleClock (PageScraped data);
                    TimerElapsed (NavigateSearch secondSearchPage)] in
  let issueRun := [OnMessage sampleClock (PageScraped (issuePayload (Some nextIssue)));
                   TimerElapsed (NavigateIssue nextIssue);
                   TabUpdated true] in
  filter isSetTimeout
    (effectsOf (onEvent longDate (OnMessage sampleClock (PageScraped data)))
               activeState)
    = [SetTimeout (NavigateSearch secondSearchPage)] /\
  filter isTabsUpdate (effectsOf (runEvents longDate searchRun) activeState)
    = [TabsUpdate 7%positive secondSearchPage false] /\
  isScraping (stateAfter (runEvents longDate searchRun) activeState) = true /\
  filter isTabsUpdate (effectsOf (runEvents longDate issueRun) activeState)
    = [TabsUpdate 7%positive nextIssue true] /\
  isScraping (stateAfter (runEvents longDate issueRun) activeState) = false /\
  existsb isTabsRemove (effectsOf (runEvents longDate issueRun) activeState)
    = false.
Proof. repeat split. Qed.

Lemma accumulators_reset_only_at_start_witness :
  let before := [OnMessage sampleClock (PageScraped (issuePayload (Some nextIssue)));
                 TimerElapsed (NavigateIssue nextIssue)] in
  let after := [OnMessage sampleClock CheckStatus;
                OnMessage sampleClock (PageScraped heartbeatPayload);
                OnMessage sampleClock StopScraping;
                TabRemoved;
                OnMessage sampleClock (PageScraped (issuePayload None))] in
  forallb (fun ev => negb (isStart ev)) (before ++ after) = true /\
  let s1 := stateAfter
              (onEvent longDate
                 (OnMessage sampleClock
                    (StartScraping "https://www.cell.com/cell/issue" (Some "cell"))))
              busyState in
  let sa := stateAfter (runEvents longDate before) s1 in
  let sb := stateAfter (runEvents longDate after) sa in
  (allArticles s1 = [] /\ natureArticles s1 = [] /\
   issueCount s1 = 0%nat /\ naturePageCount s1 = 0%nat) /\
  extends s1 sa /\ extends sa sb.
Proof.
  intros before after. split; [reflexivity|].
  apply (accumulators_reset_only_at_start
           longDate sampleClock "https://www.cell.com/cell/issue" (Some "cell")
           busyState before after).
  reflexivity.
Defined.

Lemma search_flag_precedes_heartbeat_witness :
  let data := searchPayload 1000 50 searchUrl true in
  isScraping activeState = true /\
  isNatureSearch data = true /\
  isHeartbeat data = true /\
  let s' := stateAfter (handleScrapedData longDate sampleClock data) activeState in
  let effs := effectsOf (handleScrapedData longDate sampleClock data) activeState in
  let base := "chrome/search/" ++ formatYMD (nowDate sampleClock) ++ "/page"
              ++ padStart 2 "0" (showNat (naturePageCount activeState + 1)) in
  handleScrapedData longDate sampleClock data activeState
  = handleNatureSearchData sampleClock data activeState /\
  naturePageCount s' = (naturePageCount activeState + 1)%nat /\
  natureArticles s' = (natureArticles activeState ++ articles data)%list /\
  In (SaveFile (Html (htmlContent data)) (base ++ ".html") "text/html") effs /\
  In (SaveFile (SearchPage (nowISO sampleClock) (articles data)) (base ++ ".json")
               "application/json") effs /\
  (existsb isSetTimeout effs
   = (Z.of_nat (naturePageCount activeState + 1) <? stopAtPage data)%Z).
Proof.
  intros data. split; [reflexivity|]. split; [reflexivity|].
  split; [reflexivity|].
  apply (search_flag_precedes_heartbeat longDate sampleClock data activeState);
    reflexivity.
Defined.

Example search_page_files :
  map (fun e => match e with SaveFile _ name _ => name | _ => "" end)
      (filter isSaveFile
         (effectsOf (handleScrapedData longDate sampleClock
                       (searchPayload 1000 50 searchUrl true)) activeState))
  = ["chrome/search/20240115/page01.html"; "chrome/search/20240115/page01.json"].
Proof. reflexivity. Qed.

Example first_issue_scenario :
  let run := runEvents longDate
               [OnMessage sampleClock
                  (StartScraping "https://www.cell.com/cell/issue" (Some "cell"));
                TabCreated 7%positive;
                OnMessage sampleClock (PageScraped (issuePayload (Some nextIssue)))] in
  statusOf (stateAfter run initialState) = mkStatus true (Some "cell") 1 1 "A" /\
  In (SaveFile (IssueManifest "cell" "March 3, 2024" "2024-01-15T09:00:00.000Z"
                              [articleA])
               "chrome/cell/2024/0303.json" "application/json")
     (effectsOf run initialState) /\
  In (SetTimeout (NavigateIssue nextIssue)) (effectsOf run initialState).
Proof. cbn. intuition. Qed.

Example year_token_examples :
  yearMatch "Volume 12, 2023 (date unparseable)" = Some "2023" /\
  yearMatch "x2023 a2024b 20245 2025" = Some "2025" /\
  yearMatch "Unknown Date" = None.
Proof. repeat split. Qed.

Example next_search_url_examples :
  nextSearchUrl "https://www.nature.com/search?q=crispr" 1
  = "https://www.nature.com/search?q=crispr&page=2" /\
  nextSearchUrl "https://www.nature.com/search?q=crispr&page=2" 2
  = "https://www.nature.com/search?q=crispr&page=3" /\
  stripPageParam "https://www.nature.com/search?q=crispr&page=2"
  = "https://www.nature.com/search?q=crispr".
Proof. repeat split. Qed.


(** ** Further properties of the orchestrator *)

Section SessionProperties.

Variable newDate : string -> option JSDate.

Ltac exec :=
  cbv [onEvent onMessage handlePageScraped handleScrapedData
       handleNatureSearchData handleStartScraping handleStopScraping
       handleCheckStatus runTimer stopScraping resetState
       saveHtmlForDebug saveFile broadcastStatus
       bind get modify emit ret when stateAfter effectsOf];
  cbn.

(** Case analysis on a state and an event, down to the branch taken. *)
Ltac by_event s ev :=
  destruct s as [on tab jn aa na np ic lt];
  destruct ev as [now [target j | | | data |] | id | | k | err];
  exec.

Ltac branch :=
  repeat match goal with
         | |- context [isNatureSearch ?d] => destruct (isNatureSearch d) eqn:?; cbn
         | |- context [isHeartbeat ?d] => destruct (isHeartbeat d) eqn:?; cbn
         | |- context [(Z.of_nat ?n <? stopAtPage ?d)%Z] =>
             destruct (Z.of_nat n <? stopAtPage d)%Z eqn:?; cbn
         | |- context [truthy (nextIssueUrl ?d)] =>
             destruct (truthy (nextIssueUrl d)) eqn:?; cbn
         | |- context [List.length (articles ?d)] =>
             destruct (articles d) eqn:?; cbn
         end.

Lemma stopAtPage_le_20 data : (stopAtPage data <= 20)%Z.
Proof. unfold stopAtPage. apply Z.le_min_r. Qed.

Lemma onEvent_withinCap ev s :
  withinCap s -> withinCap (stateAfter (onEvent newDate ev) s).
Proof.
  unfold withinCap. by_event s ev; intros [Hcap Hact]; cbn in *.
  - split; [lia|intros _; lia].
  - destruct tab; cbn; split; auto; discriminate.
  - auto.
  - destruct on; cbn; [|auto]. specialize (Hact eq_refl). branch;
      try (destruct tab; cbn); try (split; [lia|]; try discriminate; auto).
    all: try (intros _; pose proof (stopAtPage_le_20 data);
              match goal with H : (_ <? _)%Z = true |- _ =>
                apply Z.ltb_lt in H end; lia).
  - auto.
  - auto.
  - auto.
  - destruct tab; cbn; [destruct on, k|]; cbn; auto.
  - destruct err; cbn; [destruct tab; cbn; split; auto; discriminate|auto].
Qed.

(** X1.  The circuit breaker holds through every event, starts
    included: from a state within the cap, no run of events counts more
    than twenty search pages, and a session that is still active has
    counted at most nineteen. *)
Theorem search_pages_never_exceed_cap (evs : list Event) (s : State) :
  withinCap s ->
  withinCap (stateAfter (runEvents newDate evs) s).
Proof.
  revert s. induction evs as [|ev rest IH]; intros s Hs; [exact Hs|].
  cbn [runEvents]. rewrite stateAfter_bind.
  apply IH, onEvent_withinCap, Hs.
Qed.

(** *** Stopped sessions *)

Lemma existsb_app_false {A} (f : A -> bool) (l1 l2 : list A) :
  existsb f l1 = false -> existsb f l2 = false -> existsb f (l1 ++ l2) = false.
Proof. intros H1 H2. rewrite existsb_app, H1, H2. reflexivity. Qed.

Lemma sameResults_refl s : sameResults s s.
Proof. unfold sameResults. repeat split. Qed.

Lemma sameResults_trans s1 s2 s3 :
  sameResults s1 s2 -> sameResults s2 s3 -> sameResults s1 s3.
Proof. unfold sameResults. intuition congruence. Qed.

Lemma onEvent_stopped ev s :
  isScraping s = false ->
  isStart ev = false ->
  isScraping (stateAfter (onEvent newDate ev) s) = false /\
  sameResults s (stateAfter (onEvent newDate ev) s) /\
  existsb isSaveFile (effectsOf (onEvent newDate ev) s) = false /\
  existsb isSetTimeout (effectsOf (onEvent newDate ev) s) = false /\
  existsb isTabsUpdate (effectsOf (onEvent newDate ev) s) = false.
Proof.
  unfold sameResults.
  by_event s ev; cbn [isScraping isStart]; intros Hoff Hns; subst;
    try discriminate; cbn.
  - destruct tab; cbn; repeat split.
  - repeat split.
  - repeat split.
  - repeat split.
  - repeat split.
  - repeat split.
  - destruct tab; cbn; repeat split.
  - destruct err; cbn; [destruct tab; cbn|]; repeat split.
Qed.

(** X2.  Only a start wakes a stopped session.  Through any events
    without a start (late page results, repeated stops, status queries,
    tab and timer callbacks) it stays inactive, keeps its journal,
    articles, counters and last title, writes no file, sets no timer
    and navigates no tab. *)
Theorem stopped_session_stays_quiet (evs : list Event) (s : State) :
  isScraping s = false ->
  forallb (fun ev => negb (isStart ev)) evs = true ->
  let s' := stateAfter (runEvents newDate evs) s in
  let effs := effectsOf (runEvents newDate evs) s in
  isScraping s' = false /\
  sameResults s s' /\
  existsb isSaveFile effs = false /\
  existsb isSetTimeout effs = false /\
  existsb isTabsUpdate effs = false.
Proof.
  revert s. induction evs as [|ev rest IH]; intros s Hoff Hns.
  - cbn. split; [exact Hoff|]. split; [apply sameResults_refl|]. repeat split.
  - cbn [forallb] in Hns. apply andb_prop in Hns as [Hev Hrest].
    apply negb_true_iff in Hev.
    destruct (onEvent_stopped ev s Hoff Hev) as (Hoff1 & Hsame1 & Hf1 & Ht1 & Hu1).
    destruct (IH _ Hoff1 Hrest) as (Hoff2 & Hsame2 & Hf2 & Ht2 & Hu2).
    cbn [runEvents]. cbv zeta. rewrite stateAfter_bind, effectsOf_bind.
    split; [exact Hoff2|].
    split; [eapply sameResults_trans; eassumption|].
    repeat split; apply existsb_app_false; assumption.
Qed.

(** *** Which event makes which call *)

(** X3.  Each kind of browser call has one kind of event behind it: a
    tab is opened only by a start message, closed only by a stop
    message and navigated only by an elapsed timer; files are saved
    and timers set only for a page result. *)
Theorem calls_by_origin (ev : Event) (s : State) :
  let effs := effectsOf (onEvent newDate ev) s in
  (existsb isTabsCreate effs = true -> isStart ev = true) /\
  (existsb isTabsRemove effs = true -> isStop ev = true) /\
  (existsb isTabsUpdate effs = true -> isTimerElapsed ev = true) /\
  (existsb isSaveFile effs = true -> isPageScraped ev = true) /\
  (existsb isSetTimeout effs = true -> isPageScraped ev = true).
Proof.
  by_event s ev.
  - repeat split; discriminate || reflexivity.
  - destruct tab; cbn; repeat split; discriminate || reflexivity.
  - repeat split; discriminate.
  - destruct on; cbn; [branch; try (destruct tab; cbn)|];
      repeat split; discriminate || reflexivity.
  - repeat split; discriminate.
  - repeat split; discriminate.
  - repeat split; discriminate.
  - destruct tab; cbn; [destruct on, k|]; cbn;
      repeat split; discriminate || reflexivity.
  - destruct err; cbn; [destruct tab; cbn|]; repeat split; discriminate.
Qed.

(** *** Status *)

Lemma broadcastsOf_app (l1 l2 : list Effect) :
  broadcastsOf (l1 ++ l2) = (broadcastsOf l1 ++ broadcastsOf l2)%list.
Proof.
  induction l1 as [|e l1 IH]; [reflexivity|].
  destruct e; cbn; rewrite IH; reflexivity.
Qed.

Lemma last_cons_default {A} (l : list A) (a d d' : A) :
  List.last (a :: l) d = List.last (a :: l) d'.
Proof.
  revert a. induction l as [|b l IH]; intros a; [reflexivity|].
  change (List.last (b :: l) d = List.last (b :: l) d'). apply IH.
Qed.

Lemma last_app_cons {A} (l1 l2 : list A) (b d : A) :
  List.last (l1 ++ b :: l2) d = List.last (b :: l2) d.
Proof.
  induction l1 as [|a l1 IH]; [reflexivity|].
  cbn [app]. destruct (l1 ++ b :: l2)%list as [|c l] eqn:E.
  - destruct l1; discriminate E.
  - exact IH.
Qed.

Lemma last_app_default {A} (l1 l2 : list A) (d : A) :
  List.last (l1 ++ l2) d = List.last l2 (List.last l1 d).
Proof.
  destruct l2 as [|b l2].
  - rewrite app_nil_r. reflexivity.
  - rewrite last_app_cons. apply last_cons_default.
Qed.

Lemma onEvent_status ev s :
  isStart ev = false ->
  statusOf (stateAfter (onEvent newDate ev) s)
  = List.last (broadcastsOf (effectsOf (onEvent newDate ev) s)) (statusOf s).
Proof.
  by_event s ev; cbn [isStart]; intros Hns; try discriminate; cbn.
  - destruct tab; reflexivity.
  - reflexivity.
  - destruct on; cbn; [|reflexivity]. branch; try (destruct tab; cbn); reflexivity.
  - reflexivity.
  - reflexivity.
  - reflexivity.
  - destruct tab; cbn; [destruct on, k|]; reflexivity.
  - destruct err; cbn; [destruct tab; cbn|]; reflexivity.
Qed.

(** X4.  Apart from a start, the status never changes without being
    broadcast: after any events without a start, the status a query
    would report is the last one broadcast, or the status before them
    when none was. *)
Theorem status_is_last_broadcast (evs : list Event) (s : State) :
  forallb (fun ev => negb (isStart ev)) evs = true ->
  statusOf (stateAfter (runEvents newDate evs) s)
  = List.last (broadcastsOf (effectsOf (runEvents newDate evs) s)) (statusOf s).
Proof.
  revert s. induction evs as [|ev rest IH]; intros s Hns; [reflexivity|].
  cbn [forallb] in Hns. apply andb_prop in Hns as [Hev Hrest].
  apply negb_true_iff in Hev.
  cbn [runEvents]. rewrite stateAfter_bind, effectsOf_bind.
  rewrite broadcastsOf_app, last_app_default.
  rewrite (IH _ Hrest). rewrite <- (onEvent_status ev s Hev). reflexivity.
Qed.

(** X5.  Each message is answered exactly once, and with the answer of
    its action; a status query answers with the current status and
    does nothing else, and an unknown action does nothing at all. *)
Theorem every_message_answered_once (now : Clock) (m : Message) (s : State) :
  responsesOf (effectsOf (onEvent newDate (OnMessage now m)) s)
  = match m with
    | StartScraping _ _ => [Started]
    | StopScraping => [Stopped]
    | CheckStatus => [StatusReply (statusOf s)]
    | PageScraped _ => [Received]
    | OtherAction => []
    end /\
  onEvent newDate (OnMessage now CheckStatus) s
  = (tt, s, [Respond (StatusReply (statusOf s))]) /\
  onEvent newDate (OnMessage now OtherAction) s = (tt, s, []).
Proof.
  split; [|split; reflexivity].
  destruct s as [on tab jn aa na np ic lt].
  destruct m as [target j | | | data |]; exec; try reflexivity.
  - destruct tab; reflexivity.
  - destruct on; cbn; [|reflexivity]. branch; try (destruct tab; cbn); reflexivity.
Qed.

(** *** Manual stop *)

(** X6.  A manual stop ends the session and keeps what it gathered:
    journal, articles, counters and last title are as before.  The held
    tab is asked to be closed and its reference stays until the removal
    callback clears it; without a tab nothing is closed.  One status is
    broadcast, showing the session inactive, and a second stop leaves
    the state of the first. *)
Theorem manual_stop_keeps_results (now : Clock) (s : State) :
  let stop := OnMessage now StopScraping in
  let s1 := stateAfter (onEvent newDate stop) s in
  isScraping s1 = false /\
  scraperTabId s1 = scraperTabId s /\
  sameResults s s1 /\
  effectsOf (onEvent newDate stop) s
  = (match scraperTabId s with
     | Some id => [TabsRemove id]
     | None => []
     end ++ [Broadcast (statusOf s1); Respond Stopped])%list /\
  statusIsScraping (statusOf s1) = false /\
  scraperTabId (stateAfter (runEvents newDate [stop; TabRemoved]) s) = None /\
  stateAfter (runEvents newDate [stop; stop]) s = s1.
Proof.
  intros stop s1. subst stop s1. unfold sameResults.
  destruct s as [on tab jn aa na np ic lt].
  cbn [runEvents]. rewrite !stateAfter_bind. exec.
  destruct tab; cbn; repeat split.
Qed.

(** *** Issue results that go on *)

(** X7.  An issue result with a next-issue link, handled while the
    session is active, counts one more issue, appends its articles,
    writes the manifest and then the page HTML under the same base
    name, broadcasts once, and sets exactly one timer, for that link;
    the session stays active and keeps its tab. *)
Theorem issue_result_with_next_goes_on now data s target :
  isScraping s = true ->
  issueShape data ->
  nextIssueUrl data = Some target ->
  target <> "" ->
  let s' := stateAfter (handleScrapedData newDate now data) s in
  let effs := effectsOf (handleScrapedData newDate now data) s in
  isScraping s' = true /\
  scraperTabId s' = scraperTabId s /\
  issueCount s' = (issueCount s + 1)%nat /\
  allArticles s' = (allArticles s ++ articles data)%list /\
  effs = [Broadcast (statusOf s');
          SaveFile (IssueManifest (journal data) (publicationDate data)
                                  (nowISO now) (articles data))
                   (issueBasename newDate data ++ ".json") "application/json";
          SaveFile (Html (htmlContent data))
                   (issueBasename newDate data ++ ".html") "text/html";
          SetTimeout (NavigateIssue target)].
Proof.
  intros Hon (Hsearch & Hhb) Hnext Hne s' effs. subst s' effs.
  assert (Htruthy : truthy (nextIssueUrl data) = Some target).
  { rewrite Hnext. destruct target; [congruence|reflexivity]. }
  destruct s as [on tab jn aa na np ic lt]; cbn [isScraping] in Hon; subst on.
  exec. rewrite Hsearch, Hhb, Htruthy. cbn.
  destruct (articles data); cbn; repeat split.
Qed.

(** X8.  An empty next-issue link counts as none: the issue result is
    still counted and saved, and then the session ends as on the last
    issue, with no timer set and the tab left open. *)
Theorem empty_next_link_ends_session now data s :
  isScraping s = true ->
  issueShape data ->
  nextIssueUrl data = Some "" ->
  let s' := stateAfter (handleScrapedData newDate now data) s in
  let effs := effectsOf (handleScrapedData newDate now data) s in
  isScraping s' = false /\
  scraperTabId s' = None /\
  issueCount s' = (issueCount s + 1)%nat /\
  existsb isSetTimeout effs = false /\
  existsb isTabsRemove effs = false /\
  List.length (filter isSaveFile effs) = 2%nat.
Proof.
  intros Hon (Hsearch & Hhb) Hnext s' effs. subst s' effs.
  destruct s as [on tab jn aa na np ic lt]; cbn [isScraping] in Hon; subst on.
  exec. rewrite Hsearch, Hhb, Hnext. cbn.
  destruct (articles data); cbn; destruct tab; cbn; repeat split.
Qed.

(** *** Last title *)

(** X9.  After a page result of either kind handled while the session
    is active, the last title is the title of the result's last
    article; a result without articles leaves it as it was. *)
Theorem last_title_follows_results now data s :
  isScraping s = true ->
  isHeartbeat data = false \/ isNatureSearch data = true ->
  let s' := stateAfter (handleScrapedData newDate now data) s in
  (articles data = [] -> lastScrapedTitle s' = lastScrapedTitle s) /\
  (forall front a, articles data = (front ++ [a])%list ->
                   lastScrapedTitle s' = title a).
Proof.
  intros Hon Hkind s'. subst s'.
  assert (Hlast : forall front a,
             lastTitle (front ++ [a]) = title a).
  { intros front a. unfold lastTitle. rewrite map_app. cbn [map].
    apply last_last. }
  destruct s as [on tab jn aa na np ic lt]; cbn [isScraping] in Hon; subst on.
  exec.
  destruct (isNatureSearch data) eqn:Hs; cbn.
  - split.
    + intros ->. cbn. destruct (Z.of_nat (np + 1) <? stopAtPage data)%Z; cbn;
        [|destruct tab]; reflexivity.
    + intros front a Harts. rewrite Harts.
      destruct front as [|x front]; cbn;
        destruct (Z.of_nat (np + 1) <? stopAtPage data)%Z; cbn;
        try (destruct tab; cbn);
        first [apply (Hlast [] a) | apply (Hlast (x :: front) a)].
  - destruct Hkind as [Hhb | Habs]; [|discriminate]. rewrite Hhb. cbn. split.
    + intros ->. cbn. destruct (truthy (nextIssueUrl data)); cbn;
        [|destruct tab]; reflexivity.
    + intros front a Harts. rewrite Harts.
      destruct front as [|x front]; cbn;
        destruct (truthy (nextIssueUrl data)); cbn;
        try (destruct tab; cbn);
        first [apply (Hlast [] a) | apply (Hlast (x :: front) a)].
Qed.

(** *** File paths *)

Lemma substring_whole (text : string) :
  substring 0 (String.length text) text = text.
Proof. induction text as [|c text IH]; cbn; [reflexivity|now rewrite IH]. Qed.

Lemma key_split (n : nat) (key : string) :
  substring 0 n key ++ substring n (String.length key - n) key = key.
Proof.
  revert n. induction key as [|c key IH]; intros n.
  - destruct n; reflexivity.
  - destruct n as [|n].
    + cbn [substring append String.length Nat.sub].
      change (String c (substring 0 (String.length key) key) = String c key).
      now rewrite substring_whole.
    + cbn [substring append String.length Nat.sub]. now rewrite IH.
Qed.

Lemma substring_head (a b : string) :
  substring 0 (String.length a) (a ++ b) = a.
Proof.
  induction a as [|c a IH]; cbn.
  - destruct b; reflexivity.
  - now rewrite IH.
Qed.

Lemma substring_tail (a b : string) :
  substring (String.length a) (String.length (a ++ b) - String.length a) (a ++ b)
  = b.
Proof.
  induction a as [|c a IH].
  - cbn [append String.length]. rewrite Nat.sub_0_r. apply substring_whole.
  - cbn [append String.length substring Nat.sub]. exact IH.
Qed.

Lemma basename_of_key (data : Payload) (dir file : string) :
  String.length dir = 4%nat ->
  parsePublicationDate newDate (publicationDate data) = dir ++ file ->
  issueBasename newDate data
  = "chrome/" ++ journal data ++ "/" ++ dir ++ "/" ++ file.
Proof.
  intros Hlen Hkey. unfold issueBasename, substringTo, substringFrom.
  rewrite Hkey. rewrite <- Hlen.
  rewrite substring_head, substring_tail. reflexivity.
Qed.

(** X10.  The directory and file parts of an issue path are cut from
    the date key and together hold all of it: the directory is its
    first four characters, fewer when the key is shorter, and the file
    name is what follows. *)
Theorem issue_path_holds_the_key (data : Payload) :
  exists dir file,
    issueBasename newDate data
    = "chrome/" ++ journal data ++ "/" ++ dir ++ "/" ++ file /\
    dir ++ file = parsePublicationDate newDate (publicationDate data) /\
    String.length dir
    = Nat.min 4 (String.length
                   (parsePublicationDate newDate (publicationDate data))).
Proof.
  set (key := parsePublicationDate newDate (publicationDate data)).
  exists (substringTo 4 key), (substringFrom 4 key).
  split; [reflexivity|]. split; [apply key_split|].
  unfold substringTo. generalize 4%nat as n. clear.
  induction key as [|c key IH]; intros [|n]; cbn; auto.
Qed.

(** X11.  For a publication date the engine parses, with a four-digit
    year, the issue files go to [chrome/{journal}/{yyyy}/{mmdd}]: the
    year as directory, and the two-digit month and day as file name. *)
Theorem issue_path_for_parsed_date (data : Payload) (date : JSDate) :
  newDate (publicationDate data) = Some date ->
  (1000 <= getFullYear date <= 9999)%Z ->
  issueBasename newDate data
  = "chrome/" ++ journal data ++ "/" ++ showZ (getFullYear date) ++ "/"
    ++ padStart 2 "0" (showNat (getMonth date + 1))
    ++ padStart 2 "0" (showNat (getDate date)).
Proof.
  intros Hdate Hyear. apply basename_of_key.
  - apply showZ_four_digits, Hyear.
  - unfold parsePublicationDate. rewrite Hdate. reflexivity.
Qed.

Lemma year_token_length (y : string) :
  isYearToken y = true -> String.length y = 4%nat.
Proof.
  destruct y as [|c0 [|c1 [|d1 [|d2 [|c4 y]]]]]; cbn; congruence.
Qed.

(** X12.  For a publication date the engine does not parse, the issue
    files go to [chrome/{journal}/{year}/_unknown] when the text has a
    year token, and to [chrome/{journal}/unkn/own_year_unknown] when it
    has none. *)
Theorem issue_path_for_unparsed_date (data : Payload) :
  newDate (publicationDate data) = None ->
  (exists year,
      hasYearToken year (publicationDate data) /\
      issueBasename newDate data
      = "chrome/" ++ journal data ++ "/" ++ year ++ "/_unknown") \/
  ((forall year, ~ hasYearToken year (publicationDate data)) /\
   issueBasename newDate data
   = "chrome/" ++ journal data ++ "/unkn/own_year_unknown").
Proof.
  intros Hdate.
  destruct (yearMatch (publicationDate data)) as [y|] eqn:Hm.
  - left. exists y.
    pose proof Hm as Hs.
    apply yearMatchFrom_sound in Hs as (pre & post & Heq & Htok & Hpre & Hpost).
    split; [exists pre, post; auto|].
    apply basename_of_key; [apply year_token_length, Htok|].
    unfold parsePublicationDate. rewrite Hdate, Hm. reflexivity.
  - right. split; [apply yearMatch_none_iff, Hm|].
    apply (basename_of_key data "unkn" "own_year_unknown"); [reflexivity|].
    unfold parsePublicationDate. rewrite Hdate, Hm. reflexivity.
Qed.

(** *** Search pages *)

(** X13.  In a session within the cap, a search page handled while
    active writes exactly two files, the page HTML and then its JSON,
    under one base name [chrome/search/{yyyymmdd}/page{NN}], where [NN]
    is the new page count in exactly two digits. *)
Theorem search_page_files_two_digits now data s :
  withinCap s ->
  isScraping s = true ->
  isNatureSearch data = true ->
  let nn := padStart 2 "0" (showNat (naturePageCount s + 1)) in
  let base := "chrome/search/" ++ formatYMD (nowDate now) ++ "/page" ++ nn in
  String.length nn = 2%nat /\
  filter isSaveFile (effectsOf (handleScrapedData newDate now data) s)
  = [SaveFile (Html (htmlContent data)) (base ++ ".html") "text/html";
     SaveFile (SearchPage (nowISO now) (articles data)) (base ++ ".json")
              "application/json"].
Proof.
  intros [Hcap Hact] Hon Hsearch nn base. subst nn base.
  specialize (Hact Hon).
  split; [apply pad2_two_digits; lia|].
  unfold effectsOf. rewrite (search_flag_dispatch newDate now data s Hon Hsearch).
  destruct s as [on tab jn aa na np ic lt]. exec.
  destruct (articles data); cbn;
    destruct (Z.of_nat (np + 1) <? stopAtPage data)%Z; cbn;
    try (destruct tab; cbn); reflexivity.
Qed.

Lemma search_page_step now data s :
  isScraping s = true ->
  isNatureSearch data = true ->
  stopAtPage data = 20%Z ->
  let ev := OnMessage now (PageScraped data) in
  naturePageCount (stateAfter (onEvent newDate ev) s)
    = (naturePageCount s + 1)%nat /\
  isScraping (stateAfter (onEvent newDate ev) s)
    = (naturePageCount s + 1 <? 20)%nat /\
  natureArticles (stateAfter (onEvent newDate ev) s)
    = (natureArticles s ++ articles data)%list /\
  List.length (filter isSaveFile (effectsOf (onEvent newDate ev) s)) = 2%nat.
Proof.
  intros Hon Hsearch Hstop ev. subst ev.
  assert (Hcmp : (Z.of_nat (naturePageCount s + 1) <? stopAtPage data)%Z
                 = (naturePageCount s + 1 <? 20)%nat).
  { rewrite Hstop.
    destruct (naturePageCount s + 1 <? 20)%nat eqn:Hn.
    - apply Nat.ltb_lt in Hn. apply Z.ltb_lt. lia.
    - apply Nat.ltb_ge in Hn. apply Z.ltb_ge. lia. }
  destruct s as [on tab jn aa na np ic lt];
    cbn [isScraping naturePageCount natureArticles] in *; subst on.
  set (below := (np + 1 <? 20)%nat) in *. clearbody below.
  exec. rewrite Hsearch. cbn.
  destruct (articles data); cbn; rewrite Hcmp;
    destruct below; cbn;
    try (destruct tab; cbn); repeat split.
Qed.

(** X14.  Search results that each report enough results for twenty
    pages carry an active session exactly to the twentieth page: after
    [n] of them the count has grown by [n], the articles of all of them
    are appended in order, two files are written for each, and the
    session is still active exactly when the count is below twenty. *)
Theorem search_session_runs_to_cap (ps : list (Clock * Payload)) (s : State) :
  isScraping s = true ->
  (naturePageCount s < 20)%nat ->
  forallb (fun p => isNatureSearch (snd p) && (stopAtPage (snd p) =? 20)%Z) ps
    = true ->
  (naturePageCount s + List.length ps <= 20)%nat ->
  let s' := stateAfter (runEvents newDate (pageScrapedEvents ps)) s in
  let effs := effectsOf (runEvents newDate (pageScrapedEvents ps)) s in
  naturePageCount s' = (naturePageCount s + List.length ps)%nat /\
  isScraping s' = (naturePageCount s + List.length ps <? 20)%nat /\
  natureArticles s'
    = (natureArticles s ++ List.concat (map (fun p => articles (snd p)) ps))%list /\
  List.length (filter isSaveFile effs) = (2 * List.length ps)%nat.
Proof.
  revert s. induction ps as [|[now data] rest IH]; intros s Hon Hlt Hall Hfit.
  - unfold stateAfter, effectsOf.
    cbn [pageScrapedEvents map runEvents ret fst snd List.length concat filter].
    rewrite Nat.add_0_r, app_nil_r, Hon.
    repeat split. symmetry. apply Nat.ltb_lt, Hlt.
  - cbn [forallb snd] in Hall. apply andb_prop in Hall as [Hhead Hrest].
    apply andb_prop in Hhead as [Hsearch Hstop]. apply Z.eqb_eq in Hstop.
    destruct (search_page_step now data s Hon Hsearch Hstop)
      as (Hcount & Hactive & Harts & Hfiles).
    cbn [pageScrapedEvents map runEvents fst snd List.length concat] in *.
    fold (pageScrapedEvents rest).
    cbv zeta. rewrite stateAfter_bind, effectsOf_bind.
    set (s1 := stateAfter
                 (onEvent newDate (OnMessage now (PageScraped data))) s) in *.
    rewrite filter_app, length_app, Hfiles.
    destruct (naturePageCount s + 1 <? 20)%nat eqn:Hnext.
    + apply Nat.ltb_lt in Hnext.
      destruct (IH s1 Hactive ltac:(lia) Hrest ltac:(lia))
        as (Hc & Ha & Hn & Hf).
      rewrite Hc, Ha, Hn, Hf, Hcount, Harts.
      replace (naturePageCount s + 1 + List.length rest)%nat
        with (naturePageCount s + S (List.length rest))%nat by lia.
      rewrite <- app_assoc. repeat split. lia.
    + apply Nat.ltb_ge in Hnext.
      destruct rest as [|p rest]; [|cbn in Hfit; lia].
      cbn [pageScrapedEvents map runEvents List.length concat filter].
      cbn [stateAfter effectsOf ret fst snd List.length filter].
      unfold stateAfter, effectsOf, ret. cbn [fst snd filter List.length].
      rewrite Hcount, Hactive, Harts.
      split; [lia|]. split; [symmetry; apply Nat.ltb_ge; lia|].
      split; [|lia].
      change (List.concat [articles data]) with (articles data ++ [])%list.
      now rewrite app_nil_r.
Qed.

(** *** Timers across sessions *)

(** X15.  A start does not cancel the timers of the session before it:
    once the new session's tab is created, a timer still pending
    navigates that new tab to the URL the timer was set for. *)
Theorem pending_timer_survives_restart now target j id k s :
  effectsOf (runEvents newDate [OnMessage now (StartScraping target j);
                                TabCreated id; TimerElapsed k]) s
  = [TabsCreate target; Respond Started;
     TabsUpdate id (timerTarget k)
                match k with
                | NavigateIssue _ => true
                | NavigateSearch _ => false
                end] /\
  isScraping (stateAfter (runEvents newDate
                            [OnMessage now (StartScraping target j);
                             TabCreated id; TimerElapsed k]) s) = true.
Proof.
  cbn [runEvents]. rewrite !stateAfter_bind, !effectsOf_bind.
  destruct s as [on tab jn aa na np ic lt]. exec.
  destruct k; split; reflexivity.
Qed.

(** X19.  A search result without pagination data, or reporting no
    results, ends the session on the spot: the page is still counted
    and its two files written, no next page is scheduled, and the tab
    is left open. *)
Theorem search_without_results_ends_session now data s :
  isScraping s = true ->
  isNatureSearch data = true ->
  (totalResultsOf data <= 0)%Z ->
  let s' := stateAfter (handleScrapedData newDate now data) s in
  let effs := effectsOf (handleScrapedData newDate now data) s in
  isScraping s' = false /\
  scraperTabId s' = None /\
  naturePageCount s' = (naturePageCount s + 1)%nat /\
  existsb isSetTimeout effs = false /\
  existsb isTabsRemove effs = false /\
  List.length (filter isSaveFile effs) = 2%nat.
Proof.
  intros Hon Hsearch Hnone s' effs. subst s' effs.
  assert (Hstop : (Z.of_nat (naturePageCount s + 1) <? stopAtPage data)%Z
                  = false).
  { apply Z.ltb_ge. unfold stopAtPage.
    pose proof (ceilDiv_fifty (totalResultsOf data)) as Hceil.
    pose proof (Z.le_min_l (ceilDiv (totalResultsOf data) 50) 20). lia. }
  unfold stateAfter, effectsOf.
  rewrite (search_flag_dispatch newDate now data s Hon Hsearch).
  destruct s as [on tab jn aa na np ic lt]; cbn [naturePageCount] in *.
  exec. destruct (articles data); cbn; rewrite Hstop; cbn;
    destruct tab; cbn; repeat split.
Qed.

(** *** Search URLs from one page to the next *)

Lemma splitHead_is_prefix (sep text : string) :
  exists rest, text = splitHead sep text ++ rest.
Proof.
  induction text as [|c text [rest IH]]; cbn [splitHead].
  - destruct (prefix sep ""); exists EmptyString; reflexivity.
  - destruct (prefix sep (String c text)).
    + exists (String c text). reflexivity.
    + exists rest. cbn [append]. now rewrite <- IH.
Qed.

(** The text before the first occurrence of [sep] holds no [sep]. *)
Lemma splitHead_clean (sep text : string) :
  sep <> "" -> includes sep (splitHead sep text) = false.
Proof.
  intros Hsep. induction text as [|c text IH]; cbn [splitHead].
  - destruct sep; [congruence|]. destruct (prefix _ ""); reflexivity.
  - destruct (prefix sep (String c text)) eqn:Hp.
    + destruct sep; [congruence|]. reflexivity.
    + cbn [includes]. rewrite IH.
      destruct (prefix sep (String c (splitHead sep text))) eqn:Hq;
        [|reflexivity].
      destruct (splitHead_is_prefix sep text) as [rest Hrest].
      apply (prefix_app_l _ _ rest) in Hq. cbn [append] in Hq.
      rewrite <- Hrest in Hq. congruence.
Qed.

(** An [&page=] that starts inside [base] cannot run over into an
    appended [&page=...]: the marker does not overlap itself. *)
Lemma marker_no_overlap (base v : string) :
  prefix "&page=" base = false ->
  base <> "" ->
  prefix "&page=" (base ++ "&page=" ++ v) = false.
Proof.
  intros Hb Hne.
  destruct base as [|c0 [|c1 [|c2 [|c3 [|c4 [|c5 base]]]]]];
    [congruence|..]; cbn [append prefix] in *;
    repeat match goal with
           | H : context [ascii_dec ?a ?b] |- _ =>
               destruct (ascii_dec a b); [try subst|try discriminate]
           | |- context [ascii_dec ?a ?b] =>
               destruct (ascii_dec a b); [try subst|try reflexivity]
           end;
    try discriminate; try reflexivity; try congruence.
  rewrite prefix_nil in Hb. discriminate.
Qed.

Lemma splitHead_marker_appended (base v : string) :
  includes "&page=" base = false ->
  splitHead "&page=" (base ++ "&page=" ++ v) = base.
Proof.
  induction base as [|c b IH]; intros Hinc.
  - pose proof (prefix_append "&page=" v) as Hp.
    cbn [append] in *. cbn [splitHead]. rewrite Hp. reflexivity.
  - pose proof (includes_cons_false _ _ _ Hinc) as [Hhere Hb].
    specialize (IH Hb).
    pose proof (marker_no_overlap (String c b) v Hhere ltac:(discriminate))
      as Hno.
    cbn [append] in *. cbn [splitHead]. rewrite Hno, IH. reflexivity.
Qed.

(** X20.  Walking on from a URL the orchestrator built itself only
    replaces the page number: the next URL of a next URL is the next
    URL of the original for the new count, so the page parameter never
    piles up over a session. *)
Theorem next_search_url_replaces_own_page (current : string) (n m : nat) :
  nextSearchUrl (nextSearchUrl current n) m = nextSearchUrl current m /\
  splitHead "&page=" (nextSearchUrl current n) = splitHead "&page=" current.
Proof.
  assert (Hbase : splitHead "&page=" (nextSearchUrl current n)
                  = splitHead "&page=" current).
  { unfold nextSearchUrl. apply splitHead_marker_appended.
    apply splitHead_clean. discriminate. }
  split; [|exact Hbase].
  unfold nextSearchUrl at 1. rewrite Hbase. reflexivity.
Qed.

(** *** The start button *)

Lemma stripPrefix_split (p text rest : string) :
  stripPrefix p text = Some rest -> text = p ++ rest.
Proof.
  revert text. induction p as [|a p IH]; intros text; cbn.
  - intros [= ->]. reflexivity.
  - destruct text as [|b text]; [discriminate|].
    destruct (Ascii.eqb a b) eqn:Hab; [|discriminate].
    apply Ascii.eqb_eq in Hab. subst b. intros H. now rewrite (IH _ H).
Qed.

Lemma stripPrefix_app (p rest : string) : stripPrefix p (p ++ rest) = Some rest.
Proof.
  induction p as [|a p IH]; cbn; [reflexivity|].
  now rewrite Ascii.eqb_refl.
Qed.

Lemma prefix_split (p text : string) :
  prefix p text = true -> exists rest, text = p ++ rest.
Proof.
  revert text. induction p as [|a p IH]; intros text Hp.
  - exists text. reflexivity.
  - destruct text as [|b text]; cbn in Hp; [discriminate|].
    destruct (ascii_dec a b); [subst b|discriminate].
    destruct (IH _ Hp) as [rest ->]. exists rest. reflexivity.
Qed.

Lemma includes_prefix (p text : string) :
  prefix p text = true -> includes p text = true.
Proof. intros Hp. destruct text; cbn [includes]; now rewrite Hp. Qed.

Lemma includes_cons (p : string) (c : ascii) (text : string) :
  includes p text = true -> includes p (String c text) = true.
Proof.
  intros H. cbn [includes]. destruct (prefix p (String c text)); auto.
Qed.

Lemma includes_app (p pre rest : string) :
  includes p (pre ++ p ++ rest) = true.
Proof.
  induction pre as [|c pre IH]; cbn [append].
  - apply includes_prefix, prefix_append.
  - apply includes_cons, IH.
Qed.

Lemma includes_split (p text : string) :
  includes p text = true -> exists pre rest, text = pre ++ p ++ rest.
Proof.
  induction text as [|c text IH]; cbn [includes].
  - destruct (prefix p "") eqn:Hp; [|discriminate]. intros _.
    destruct (prefix_split _ _ Hp) as [rest Hrest].
    exists EmptyString, rest. exact Hrest.
  - destruct (prefix p (String c text)) eqn:Hp.
    + intros _. destruct (prefix_split _ _ Hp) as [rest Hrest].
      exists EmptyString, rest. exact Hrest.
    + intros H. destruct (IH H) as (pre & rest & ->).
      exists (String c pre), rest. reflexivity.
Qed.

(** A text holding a pattern holds every beginning of the pattern. *)
Lemma includes_shorter (p extra text : string) :
  includes (p ++ extra) text = true -> includes p text = true.
Proof.
  intros H. destruct (includes_split _ _ H) as (pre & rest & ->).
  rewrite (append_assoc p extra rest). apply includes_app.
Qed.

Lemma span_split (keep : ascii -> bool) (text : string) :
  text = fst (span keep text) ++ snd (span keep text).
Proof.
  induction text as [|c text IH]; cbn [span]; [reflexivity|].
  destruct (keep c); [|reflexivity].
  destruct (span keep text) as [a b]. cbn in *. now rewrite <- IH.
Qed.

Lemma span_no_slash (text : string) :
  hasChar "/" (fst (span notSlash text)) = false.
Proof.
  induction text as [|c text IH]; cbn [span]; [reflexivity|].
  unfold notSlash at 1. destruct (Ascii.eqb c "/") eqn:Hc; cbn; [reflexivity|].
  destruct (span notSlash text) as [a b]. cbn in *. now rewrite Hc.
Qed.

Lemma span_to_slash (segment rest : string) :
  hasChar "/" segment = false ->
  span notSlash (segment ++ String "/" rest) = (segment, String "/" rest).
Proof.
  induction segment as [|c segment IH]; intros Hseg; [reflexivity|].
  cbn [hasChar] in Hseg. apply orb_false_elim in Hseg as [Hc Hseg].
  cbn [append span]. unfold notSlash at 1. rewrite Hc. cbn [negb].
  now rewrite (IH Hseg).
Qed.

Lemma cellPatternHere_shape (text : string) :
  cellPatternHere text = true ->
  exists segment post,
    text = "cell.com/" ++ segment ++ "/issue" ++ post /\
    segment <> "" /\ hasChar "/" segment = false.
Proof.
  unfold cellPatternHere.
  destruct (stripPrefix "cell.com/" text) as [rest|] eqn:Hstrip; [|discriminate].
  apply stripPrefix_split in Hstrip.
  pose proof (span_split notSlash rest) as Hsplit.
  pose proof (span_no_slash rest) as Hclean.
  destruct (span notSlash rest) as [segment after]. cbn [fst snd] in *.
  destruct segment as [|c segment]; [discriminate|].
  intros Hissue. destruct (prefix_split _ _ Hissue) as [post ->].
  exists (String c segment), post. subst. repeat split; congruence.
Qed.

Lemma isCellUrl_shape (address : string) :
  isCellUrl address = true ->
  exists pre segment post,
    address = pre ++ "cell.com/" ++ segment ++ "/issue" ++ post /\
    segment <> "" /\ hasChar "/" segment = false.
Proof.
  induction address as [|c rest IH]; cbn [isCellUrl]; intros H.
  - rewrite orb_false_r in H.
    destruct (cellPatternHere_shape _ H) as (seg & post & Heq & Hne & Hseg).
    exists EmptyString, seg, post. auto.
  - apply orb_prop in H as [H | H].
    + destruct (cellPatternHere_shape _ H) as (seg & post & Heq & Hne & Hseg).
      exists EmptyString, seg, post. auto.
    + destruct (IH H) as (pre & seg & post & -> & Hne & Hseg).
      exists (String c pre), seg, post. auto.
Qed.

Lemma isCellUrl_of_shape (pre segment post : string) :
  segment <> "" ->
  hasChar "/" segment = false ->
  isCellUrl (pre ++ "cell.com/" ++ segment ++ "/issue" ++ post) = true.
Proof.
  intros Hne Hseg.
  assert (Hhere : cellPatternHere ("cell.com/" ++ segment ++ "/issue" ++ post)
                  = true).
  { unfold cellPatternHere. rewrite stripPrefix_app.
    change ("/issue" ++ post) with (String "/" ("issue" ++ post)).
    rewrite (span_to_slash _ _ Hseg).
    destruct segment; [congruence|].
    change (String "/" ("issue" ++ post)) with ("/issue" ++ post).
    apply prefix_append. }
  induction pre as [|c pre IH].
  - cbn [append] in *.
    destruct ("cell.com/" ++ segment ++ "/issue" ++ post);
      cbn [isCellUrl]; rewrite Hhere; reflexivity.
  - change (String c pre ++ "cell.com/" ++ segment ++ "/issue" ++ post)
      with (String c (pre ++ "cell.com/" ++ segment ++ "/issue" ++ post)).
    cbn [isCellUrl]. rewrite IH. apply orb_true_r.
Qed.

Lemma isCellUrl_includes (address : string) :
  isCellUrl address = true -> includes "cell.com/" address = true.
Proof.
  intros H. destruct (isCellUrl_shape _ H) as (pre & seg & post & -> & _).
  apply includes_app.
Qed.

(** X16.  The start button takes a page for a Cell issue exactly when
    its URL holds [cell.com/], then a non-empty path segment, then
    [/issue]. *)
Theorem cell_pages_recognised (address : string) :
  isCellUrl address = true <->
  exists pre segment post,
    address = pre ++ "cell.com/" ++ segment ++ "/issue" ++ post /\
    segment <> "" /\ hasChar "/" segment = false.
Proof.
  split; [apply isCellUrl_shape|].
  intros (pre & seg & post & -> & Hne & Hseg).
  apply isCellUrl_of_shape; assumption.
Qed.

(** X17.  A click on the start button sends nothing when the active tab
    has no URL, or one that holds none of [cell.com/],
    [science.org/toc/] and [nature.com/]. *)
Theorem start_click_rejects_foreign_pages (tabUrl : option string) :
  (forall address,
      tabUrl = Some address -> address <> "" ->
      includes "cell.com/" address = false /\
      includes "science.org/toc/" address = false /\
      includes "nature.com/" address = false) ->
  startClick tabUrl = None.
Proof.
  intros Hforeign. unfold startClick.
  destruct tabUrl as [[|c address]|]; cbn [truthy]; try reflexivity.
  destruct (Hforeign (String c address) eq_refl ltac:(discriminate))
    as (Hcell & Hscience & Hnature).
  assert (H1 : isCellUrl (String c address) = false).
  { destruct (isCellUrl (String c address)) eqn:H; [|reflexivity].
    apply isCellUrl_includes in H. congruence. }
  assert (H2 : isNatureSearchUrl (String c address) = false).
  { unfold isNatureSearchUrl.
    destruct (includes "nature.com/search" (String c address)) eqn:H;
      [|reflexivity].
    apply (includes_shorter "nature.com/" "search") in H. congruence. }
  unfold isScienceUrl, isNatureIssueUrl. rewrite H1, H2, Hscience, Hnature.
  reflexivity.
Qed.

(** X18.  When a click on the start button sends a message, it is a
    start for the URL of the active tab, naming [cell] exactly for a
    Cell issue page, else [nature] only for a URL holding
    [nature.com/], else [science] only for a URL holding
    [science.org/toc/]; handled by the background script from any
    state, it leaves an active session for that journal whose status
    shows no page and no article. *)
Theorem start_click_starts_a_session (tabUrl : option string) (m : Message) :
  startClick tabUrl = Some m ->
  exists address j,
    tabUrl = Some address /\
    m = StartScraping address (Some j) /\
    (j = "cell" \/ j = "nature" \/ j = "science") /\
    (j = "cell" <-> isCellUrl address = true) /\
    (j = "nature" -> includes "nature.com/" address = true) /\
    (j = "science" -> includes "science.org/toc/" address = true) /\
    forall now s,
      let s' := stateAfter (onEvent newDate (OnMessage now m)) s in
      isScraping s' = true /\
      currentJournal s' = Some j /\
      statusOf s' = mkStatus true (Some j) 0 0 "".
Proof.
  unfold startClick.
  destruct tabUrl as [[|c rest]|]; cbn [truthy]; try discriminate.
  set (address := String c rest).
  destruct (isCellUrl address || isScienceUrl address
            || isNatureSearchUrl address || isNatureIssueUrl address)
    eqn:Hok; [|discriminate].
  intros [= <-]. exists address, (journalFor address).
  split; [reflexivity|]. split; [reflexivity|].
  unfold journalFor.
  destruct (isCellUrl address) eqn:Hcell.
  - repeat split; auto; discriminate.
  - destruct (isNatureSearchUrl address || isNatureIssueUrl address) eqn:Hnat.
    + split; [auto|]. split; [split; discriminate|].
      split; [|split; [discriminate|repeat split]].
      intros _. apply orb_prop in Hnat as [H | H].
      * apply (includes_shorter "nature.com/" "search"), H.
      * unfold isNatureIssueUrl in H.
        apply andb_prop in H as [H _]. apply andb_prop in H as [H _]. exact H.
    + split; [auto|]. split; [split; discriminate|].
      split; [discriminate|]. split; [|repeat split].
      intros _. apply orb_false_elim in Hnat as [Hs Hi].
      cbn [orb] in Hok. rewrite Hs, Hi, !orb_false_r in Hok. exact Hok.
Qed.

End SessionProperties.


(** ** The further properties on concrete sessions *)

Lemma search_pages_never_exceed_cap_witness :
  let evs := [OnMessage sampleClock (StartScraping searchUrl (Some "nature"));
              TabCreated 7%positive;
              OnMessage sampleClock (PageScraped (searchPayload 1000 50 searchUrl false));
              TimerElapsed (NavigateSearch secondSearchPage);
              OnMessage sampleClock (PageScraped (searchPayload 60 50 secondSearchPage false))] in
  withinCap initialState /\
  withinCap (stateAfter (runEvents longDate evs) initialState).
Proof.
  intros evs.
  assert (H0 : withinCap initialState)
    by (unfold withinCap; cbn; split; [lia|discriminate]).
  split; [exact H0|].
  apply (search_pages_never_exceed_cap longDate evs initialState H0).
Defined.

Lemma stopped_session_stays_quiet_witness :
  let evs := [OnMessage sampleClock (PageScraped (issuePayload (Some nextIssue)));
              TimerElapsed (NavigateIssue nextIssue);
              OnMessage sampleClock StopScraping;
              OnMessage sampleClock CheckStatus;
              TabUpdated true] in
  isScraping stoppedState = false /\
  forallb (fun ev => negb (isStart ev)) evs = true /\
  let s' := stateAfter (runEvents longDate evs) stoppedState in
  let effs := effectsOf (runEvents longDate evs) stoppedState in
  isScraping s' = false /\
  sameResults stoppedState s' /\
  existsb isSaveFile effs = false /\
  existsb isSetTimeout effs = false /\
  existsb isTabsUpdate effs = false.
Proof.
  intros evs. split; [reflexivity|]. split; [reflexivity|].
  apply (stopped_session_stays_quiet longDate evs stoppedState);
    reflexivity.
Defined.

Lemma status_is_last_broadcast_witness :
  let evs := [OnMessage sampleClock (PageScraped (issuePayload (Some nextIssue)));
              TimerElapsed (NavigateIssue nextIssue);
              OnMessage sampleClock (PageScraped (issuePayload None))] in
  forallb (fun ev => negb (isStart ev)) evs = true /\
  statusOf (stateAfter (runEvents longDate evs) busyState)
  = List.last (broadcastsOf (effectsOf (runEvents longDate evs) busyState))
              (statusOf busyState).
Proof.
  intros evs. split; [reflexivity|].
  apply (status_is_last_broadcast longDate evs busyState). reflexivity.
Defined.

Lemma issue_result_with_next_goes_on_witness :
  let data := issuePayload (Some nextIssue) in
  isScraping busyState = true /\
  issueShape data /\
  nextIssueUrl data = Some nextIssue /\
  nextIssue <> "" /\
  let s' := stateAfter (handleScrapedData longDate sampleClock data) busyState in
  let effs := effectsOf (handleScrapedData longDate sampleClock data) busyState in
  isScraping s' = true /\
  scraperTabId s' = scraperTabId busyState /\
  issueCount s' = (issueCount busyState + 1)%nat /\
  allArticles s' = (allArticles busyState ++ articles data)%list /\
  effs = [Broadcast (statusOf s');
          SaveFile (IssueManifest (journal data) (publicationDate data)
                                  (nowISO sampleClock) (articles data))
                   (issueBasename longDate data ++ ".json") "application/json";
          SaveFile (Html (htmlContent data))
                   (issueBasename longDate data ++ ".html") "text/html";
          SetTimeout (NavigateIssue nextIssue)].
Proof.
  intros data.
  assert (Hshape : issueShape data) by (split; reflexivity).
  assert (Hne : nextIssue <> "") by discriminate.
  split; [reflexivity|]. split; [exact Hshape|]. split; [reflexivity|].
  split; [exact Hne|].
  apply (issue_result_with_next_goes_on longDate sampleClock data busyState
           nextIssue eq_refl Hshape eq_refl Hne).
Defined.

Lemma empty_next_link_ends_session_witness :
  let data := issuePayload (Some "") in
  isScraping busyState = true /\
  issueShape data /\
  nextIssueUrl data = Some "" /\
  let s' := stateAfter (handleScrapedData longDate sampleClock data) busyState in
  let effs := effectsOf (handleScrapedData longDate sampleClock data) busyState in
  isScraping s' = false /\
  scraperTabId s' = None /\
  issueCount s' = (issueCount busyState + 1)%nat /\
  existsb isSetTimeout effs = false /\
  existsb isTabsRemove effs = false /\
  List.length (filter isSaveFile effs) = 2%nat.
Proof.
  intros data.
  assert (Hshape : issueShape data) by (split; reflexivity).
  split; [reflexivity|]. split; [exact Hshape|]. split; [reflexivity|].
  apply (empty_next_link_ends_session longDate sampleClock data busyState
           eq_refl Hshape eq_refl).
Defined.

Lemma last_title_follows_results_witness :
  let data := searchPayload 1000 50 searchUrl false in
  isScraping busyState = true /\
  (isHeartbeat data = false \/ isNatureSearch data = true) /\
  let s' := stateAfter (handleScrapedData longDate sampleClock data) busyState in
  (articles data = [] -> lastScrapedTitle s' = lastScrapedTitle busyState) /\
  (forall front a, articles data = (front ++ [a])%list ->
                   lastScrapedTitle s' = title a).
Proof.
  intros data.
  assert (Hkind : isHeartbeat data = false \/ isNatureSearch data = true)
    by (left; reflexivity).
  split; [reflexivity|]. split; [exact Hkind|].
  apply (last_title_follows_results longDate sampleClock data busyState
           eq_refl Hkind).
Defined.

Lemma issue_path_for_parsed_date_witness :
  let data := issuePayload None in
  let date := mkJSDate 2024 2 3 in
  longDate (publicationDate data) = Some date /\
  (1000 <= getFullYear date <= 9999)%Z /\
  issueBasename longDate data
  = "chrome/" ++ journal data ++ "/" ++ showZ (getFullYear date) ++ "/"
    ++ padStart 2 "0" (showNat (getMonth date + 1))
    ++ padStart 2 "0" (showNat (getDate date)).
Proof.
  intros data date.
  assert (Hyear : (1000 <= getFullYear date <= 9999)%Z) by (cbn; lia).
  split; [reflexivity|]. split; [exact Hyear|].
  apply (issue_path_for_parsed_date longDate data date eq_refl Hyear).
Defined.

Example issue_path_examples :
  issueBasename longDate (issuePayload None) = "chrome/cell/2024/0303" /\
  issueBasename longDate volumePayload = "chrome/Nature/2023/_unknown" /\
  issueBasename longDate unknownDatePayload
  = "chrome/Science/unkn/own_year_unknown".
Proof. repeat split. Qed.

Lemma issue_path_for_unparsed_date_witness :
  longDate (publicationDate volumePayload) = None /\
  ((exists year,
       hasYearToken year (publicationDate volumePayload) /\
       issueBasename longDate volumePayload
       = "chrome/" ++ journal volumePayload ++ "/" ++ year ++ "/_unknown") \/
   ((forall year, ~ hasYearToken year (publicationDate volumePayload)) /\
    issueBasename longDate volumePayload
    = "chrome/" ++ journal volumePayload ++ "/unkn/own_year_unknown")).
Proof.
  split; [reflexivity|].
  apply (issue_path_for_unparsed_date longDate volumePayload eq_refl).
Defined.

Lemma search_page_files_two_digits_witness :
  let data := searchPayload 1000 50 secondSearchPage false in
  withinCap searchingState /\
  isScraping searchingState = true /\
  isNatureSearch data = true /\
  let nn := padStart 2 "0" (showNat (naturePageCount searchingState + 1)) in
  let base := "chrome/search/" ++ formatYMD (nowDate sampleClock) ++ "/page" ++ nn in
  String.length nn = 2%nat /\
  filter isSaveFile
    (effectsOf (handleScrapedData longDate sampleClock data) searchingState)
  = [SaveFile (Html (htmlContent data)) (base ++ ".html") "text/html";
     SaveFile (SearchPage (nowISO sampleClock) (articles data)) (base ++ ".json")
              "application/json"].
Proof.
  intros data.
  assert (Hcap : withinCap searchingState)
    by (unfold withinCap; cbn; split; [lia|intros _; lia]).
  split; [exact Hcap|]. split; [reflexivity|]. split; [reflexivity|].
  apply (search_page_files_two_digits longDate sampleClock data searchingState
           Hcap eq_refl eq_refl).
Defined.

Lemma search_session_runs_to_cap_witness :
  let ps := [(sampleClock, searchPayload 1000 50 searchUrl false);
             (sampleClock, searchPayload 1000 50 secondSearchPage false);
             (sampleClock, searchPayload 5000 50 secondSearchPage true)] in
  isScraping activeState = true /\
  (naturePageCount activeState < 20)%nat /\
  forallb (fun p => isNatureSearch (snd p) && (stopAtPage (snd p) =? 20)%Z) ps
    = true /\
  (naturePageCount activeState + List.length ps <= 20)%nat /\
  let s' := stateAfter (runEvents longDate (pageScrapedEvents ps)) activeState in
  let effs := effectsOf (runEvents longDate (pageScrapedEvents ps)) activeState in
  naturePageCount s' = (naturePageCount activeState + List.length ps)%nat /\
  isScraping s' = (naturePageCount activeState + List.length ps <? 20)%nat /\
  natureArticles s'
    = (natureArticles activeState
       ++ List.concat (map (fun p => articles (snd p)) ps))%list /\
  List.length (filter isSaveFile effs) = (2 * List.length ps)%nat.
Proof.
  intros ps.
  assert (Hlt : (naturePageCount activeState < 20)%nat) by (cbn; lia).
  assert (Hfit : (naturePageCount activeState + List.length ps <= 20)%nat)
    by (cbn; lia).
  split; [reflexivity|]. split; [exact Hlt|]. split; [reflexivity|].
  split; [exact Hfit|].
  apply (search_session_runs_to_cap longDate ps activeState
           eq_refl Hlt eq_refl Hfit).
Defined.

Lemma start_click_rejects_foreign_pages_witness :
  (forall address,
      Some "https://example.org/journal/issue" = Some address ->
      address <> "" ->
      includes "cell.com/" address = false /\
      includes "science.org/toc/" address = false /\
      includes "nature.com/" address = false) /\
  startClick (Some "https://example.org/journal/issue") = None.
Proof.
  assert (Hforeign : forall address,
             Some "https://example.org/journal/issue" = Some address ->
             address <> "" ->
             includes "cell.com/" address = false /\
             includes "science.org/toc/" address = false /\
             includes "nature.com/" address = false).
  { intros address [= <-] _. repeat split. }
  split; [exact Hforeign|].
  apply (start_click_rejects_foreign_pages _ Hforeign).
Defined.

Lemma start_click_starts_a_session_witness :
  let m := StartScraping cellIssueUrl (Some "cell") in
  startClick (Some cellIssueUrl) = Some m /\
  exists address j,
    Some cellIssueUrl = Some address /\
    m = StartScraping address (Some j) /\
    (j = "cell" \/ j = "nature" \/ j = "science") /\
    (j = "cell" <-> isCellUrl address = true) /\
    (j = "nature" -> includes "nature.com/" address = true) /\
    (j = "science" -> includes "science.org/toc/" address = true) /\
    forall now s,
      let s' := stateAfter (onEvent longDate (OnMessage now m)) s in
      isScraping s' = true /\
      currentJournal s' = Some j /\
      statusOf s' = mkStatus true (Some j) 0 0 "".
Proof.
  intros m. split; [reflexivity|].
  apply (start_click_starts_a_session longDate (Some cellIssueUrl) m).
  reflexivity.
Defined.

Example start_click_examples :
  startClick (Some "https://www.science.org/toc/science/383/6678")
  = Some (StartScraping "https://www.science.org/toc/science/383/6678"
                        (Some "science")) /\
  startClick (Some "https://www.nature.com/search?q=crispr")
  = Some (StartScraping "https://www.nature.com/search?q=crispr" (Some "nature")) /\
  startClick (Some "https://www.nature.com/nature/volumes/625/issues/7993")
  = Some (StartScraping "https://www.nature.com/nature/volumes/625/issues/7993"
                        (Some "nature")) /\
  startClick (Some "https://www.cell.com//issue") = None /\
  startClick None = None.
Proof. repeat split. Qed.

Lemma search_without_results_ends_session_witness :
  isScraping activeState = true /\
  isNatureSearch barePayload = true /\
  (totalResultsOf barePayload <= 0)%Z /\
  let s' := stateAfter (handleScrapedData longDate sampleClock barePayload)
                       activeState in
  let effs := effectsOf (handleScrapedData longDate sampleClock barePayload)
                        activeState in
  isScraping s' = false /\
  scraperTabId s' = None /\
  naturePageCount s' = (naturePageCount activeState + 1)%nat /\
  existsb isSetTimeout effs = false /\
  existsb isTabsRemove effs = false /\
  List.length (filter isSaveFile effs) = 2%nat.
Proof.
  assert (Hnone : (totalResultsOf barePayload <= 0)%Z) by (cbn; lia).
  split; [reflexivity|]. split; [reflexivity|]. split; [exact Hnone|].
  apply (search_without_results_ends_session longDate sampleClock barePayload
           activeState eq_refl eq_refl Hnone).
Defined.

Example search_url_walk :
  nextSearchUrl (nextSearchUrl (nextSearchUrl searchUrl 1) 2) 3
  = "https://www.nature.com/search?q=crispr&page=4".
Proof. reflexivity. Qed.
